(** * CAT_pack/single_bin.py: the single-bin driver of the Bin Annotation Tool

    A shallow embedding of [run] and of the two numeric options of
    [parse_arguments], with the properties of the report files they
    produce.

    Conventions.
    - A Python [str] is a [string] (a sequence of bytes; for UTF-8 text the
      bytewise order used by [sorted] is the code-point order Python uses).
    - A [dict] is a [gmap], a [set] a [gset]; the iterable [contig_names] is
      a list in whatever order the interpreter iterates it.
    - Bit-scores, support scores and the option [f] are exact rationals.
    - The two report files are lists of lines, each line ending in a
      newline character.  Code that may raise returns [option]; [run] lives
      in a monad that keeps what has been written when an exception
      propagates out of the [with] block. *)

From Stdlib Require Import String Ascii List ZArith QArith Qabs Qround Lia Permutation.
From Stdlib Require Import Floats.PrimFloat Floats.SpecFloat Floats.FloatOps Floats.FloatAxioms Uint63.
From Stdlib Require DecimalString.
From stdpp Require Import gmap strings list sorting.

Local Open Scope string_scope.

(** ** Python built-ins used by the driver *)

Module Py.

Definition TAB : string := String "009"%char EmptyString.
Definition LF : string := String "010"%char EmptyString.

(** [sep.join(l)] *)
Definition join (sep : string) (l : list string) : string := String.concat sep l.

(** [s.startswith(p)] *)
Definition startswith (s p : string) : bool := String.prefix p s.

(** [str(n)] for a non-negative [int] *)
Definition str_nat (n : nat) : string :=
  DecimalString.NilZero.string_of_uint (Nat.to_uint n).

Definition str_Z (z : Z) : string :=
  DecimalString.NilZero.string_of_int (Z.to_int z).

(** [s.rsplit('/', 1)[-1]]: what follows the last slash, the whole string
    when there is none.  [after_last_slash s cur] scans [s] with [cur] the
    text read since the last slash. *)
Fixpoint after_last_slash (s : string) (cur : string) : string :=
  match s with
  | EmptyString => cur
  | String c s' =>
      if Ascii.eqb c "/"%char then after_last_slash s' EmptyString
      else after_last_slash s' (cur ++ String c EmptyString)
  end.

Definition rsplit_slash_last (s : string) : string := after_last_slash s EmptyString.

(** Rounding of a non-negative rational to the nearest integer, ties to
    even: the rounding of the [f] presentation type. *)
Definition round_half_even (q : Q) : Z :=
  let n := Qnum q in
  let d := Z.pos (Qden q) in
  let fl := (n / d)%Z in
  let r2 := (2 * (n mod d))%Z in
  if (r2 <? d)%Z then fl
  else if (d <? r2)%Z then (fl + 1)%Z
  else if Z.even fl then fl else (fl + 1)%Z.

Definition two_digits (z : Z) : string :=
  str_Z (z / 10) ++ str_Z (z mod 10).

(** ['{0:.2f}'.format(x)] *)
Definition format_2f (x : Q) : string :=
  let c := round_half_even (Qabs x * 100) in
  (if Qlt_le_dec x 0 then "-" else "")
    ++ str_Z (c / 100) ++ "." ++ two_digits (c mod 100).

(** [enumerate(l)] *)
Definition enumerate {A} (l : list A) : list (nat * A) :=
  combine (seq 0 (length l)) l.

(** [sorted(names)] on strings *)
Definition sorted (names : list string) : list string :=
  merge_sort String.le names.

(** One tab-separated record followed by a newline, as the [format]
    strings of the driver spell it. *)
Definition tsv (fields : list string) : string := join TAB fields ++ LF.

(** [s.split(c)], with [cur] the text of the field being read; the fields
    of a line are [line.rstrip('\n').split('\t')]. *)
Fixpoint split_on (c : ascii) (s : string) (cur : string) : list string :=
  match s with
  | EmptyString => [cur]
  | String a s' =>
      if Ascii.eqb a c then cur :: split_on c s' EmptyString
      else split_on c s' (cur ++ String a EmptyString)
  end.

(** [line.rstrip('\n')] *)
Fixpoint rstrip_LF (s : string) : string :=
  match s with
  | EmptyString => EmptyString
  | String c s' =>
      match rstrip_LF s' with
      | EmptyString => if Ascii.eqb c "010"%char then EmptyString else String c EmptyString
      | r => String c r
      end
  end.

Definition fields_of (line : string) : list string :=
  split_on "009"%char (rstrip_LF line) EmptyString.

(** The string has no occurrence of the character. *)
Fixpoint free_of (c : ascii) (s : string) : bool :=
  match s with
  | EmptyString => true
  | String a s' => negb (Ascii.eqb a c) && free_of c s'
  end.

End Py.

(** ** The report files and the effects of [run] *)

Record outfiles := Outfiles { outf1 : list string; outf2 : list string }.

(** A computation writes to the two open files and either returns a value
    or lets an exception escape ([None]); what was written stays written. *)
Definition M (A : Type) : Type := outfiles -> outfiles * option A.

Definition ret {A} (a : A) : M A := fun s => (s, Some a).

Definition bind {A B} (m : M A) (k : A -> M B) : M B :=
  fun s => match m s with
           | (s', Some a) => k a s'
           | (s', None) => (s', None)
           end.

(** A call into code that may raise. *)
Definition call {A} (o : option A) : M A := fun s => (s, o).

Definition write1 (line : string) : M unit :=
  fun s => (Outfiles (outf1 s ++ [line])%list (outf2 s), Some tt).

Definition write2 (line : string) : M unit :=
  fun s => (Outfiles (outf1 s) (outf2 s ++ [line])%list, Some tt).

#[global] Instance M_ret : MRet M := @ret.
#[global] Instance M_bind : MBind M := fun A B k m => bind m k.

(** [for x in l: acc = body(x, acc)] *)
Fixpoint for_each {A S} (l : list A) (body : A -> S -> M S) (acc : S) : M S :=
  match l with
  | [] => ret acc
  | x :: l' => bind (body x acc) (for_each l' body)
  end.

(** ** The [tax] module, as [run] uses it *)

(** What [tax.find_weighted_LCA] hands back.  The first two constructors
    are the sentinel strings ['no ORFs with taxids found.'] and
    ['no lineage whitelisted.'] that [run] compares its result with. *)
Inductive weighted_LCA : Type :=
| NoORFsWithTaxids
| NoLineageWhitelisted
| Lineages (lineages : list (list string))
           (lineages_scores : list (list Q))
           (based_on_n_ORFs : nat).

(** A hit of an ORF: the accession it aligns to and the bit-score. *)
Definition hit : Type := string * Q.

Class Tax := {
  find_LCA_for_ORF :
    list hit -> gmap string string -> gmap string string -> option (string * Q);
  find_lineage : string -> gmap string string -> option (list string);
  star_lineage : list string -> gset string -> list string;
  find_weighted_LCA :
    list (string * Q) -> gmap string string -> Q -> option weighted_LCA
}.

(** ** [run] *)

(** The tables [run] has loaded when it opens the report files. *)
Record tables := Tables {
  contig_names : list string;
  contig2ORFs : gmap string (list string);
  ORF2hits : gmap string (list hit);
  taxid2parent : gmap string string;
  fastaid2LCAtaxid : gmap string string;
  taxids_with_multiple_offspring : gset string
}.

Record arguments := Arguments_ {
  bin_fasta : string;
  f : Q;
  no_stars : bool
}.

Definition header1 : string :=
  Py.tsv ["# bin"; "classification"; "reason"; "lineage"; "lineage scores"].
Definition header2 : string :=
  Py.tsv ["# ORF"; "bin"; "lineage"; "bit-score"].

Section Run.

Context {tax : Tax}.
(** [str] of a bit-score; the numeric type is chosen by
    [shared.parse_tabular_alignment]. *)
Variable str_bitscore : Q -> string.
Variable args : arguments.
Variable T : tables.

Definition stars (lineage : list string) : list string :=
  if no_stars args then lineage
  else star_lineage lineage (taxids_with_multiple_offspring T).

(** Body of [for ORF in contig2ORFs[contig]]. *)
Definition ORF_body (bin_ ORF : string) (LCAs_ORFs : list (string * Q))
  : M (list (string * Q)) :=
  match ORF2hits T !! ORF with
  | None =>
      write2 (Py.tsv [ORF; bin_; "ORF has no hit to database"]);;
      ret LCAs_ORFs
  | Some hits =>
      '(taxid, top_bitscore) ←
        call (find_LCA_for_ORF hits (fastaid2LCAtaxid T) (taxid2parent T));
      (if Py.startswith taxid "no taxid found" then
         write2 (Py.tsv [ORF; bin_; taxid; str_bitscore top_bitscore])
       else
         lineage ← call (find_lineage taxid (taxid2parent T));
         write2 (Py.tsv [ORF; bin_; Py.join ";" (rev (stars lineage));
                         str_bitscore top_bitscore]));;
      ret (LCAs_ORFs ++ [(taxid, top_bitscore)])%list
  end.

(** Body of [for contig in sorted(contig_names)]. *)
Definition contig_body (bin_ contig : string) (LCAs_ORFs : list (string * Q))
  : M (list (string * Q)) :=
  match contig2ORFs T !! contig with
  | None => ret LCAs_ORFs
  | Some ORFs => for_each ORFs (ORF_body bin_) LCAs_ORFs
  end.

Definition ORF_loop (bin_ : string) : M (list (string * Q)) :=
  for_each (Py.sorted (contig_names T)) (contig_body bin_) [].

Definition total_n_ORFs : nat :=
  list_sum (map (fun contig => match contig2ORFs T !! contig with
                               | Some ORFs => length ORFs
                               | None => 0
                               end)
                (contig_names T)).

(** Body of [for (i, lineage) in enumerate(lineages)]. *)
Definition lineage_body (bin_ : string) (lineages : list (list string))
    (lineages_scores : list (list Q)) (based_on_n_ORFs : nat)
    (il : nat * list string) (_ : unit) : M unit :=
  let '(i, lineage) := il in
  let lineage := stars lineage in
  ss ← call (lineages_scores !! i);
  let scores := map Py.format_2f ss in
  let reason :=
    "based on " ++ Py.str_nat based_on_n_ORFs ++ "/"
                ++ Py.str_nat total_n_ORFs ++ " ORFs" in
  if Nat.eqb (length lineages) 1 then
    write1 (Py.tsv [bin_; "classified"; reason;
                    Py.join ";" (rev lineage); Py.join ";" (rev scores)])
  else
    write1 (Py.tsv [bin_;
                    "classified (" ++ Py.str_nat (i + 1) ++ "/"
                       ++ Py.str_nat (length lineages) ++ ")";
                    reason;
                    Py.join ";" (rev lineage); Py.join ";" (rev scores)]).

(** Body of [for bin_ in bin_list]; the accumulator is
    [n_classified_bins]. *)
Definition bin_body (bin_ : string) (n_classified_bins : nat) : M nat :=
  LCAs_ORFs ← ORF_loop bin_;
  if Nat.eqb (length LCAs_ORFs) 0 then
    write1 (Py.tsv [bin_; "unclassified"; "no hits to database"]);;
    ret n_classified_bins
  else
    r ← call (find_weighted_LCA LCAs_ORFs (taxid2parent T) (f args));
    match r with
    | NoORFsWithTaxids =>
        write1 (Py.tsv [bin_; "unclassified";
                        "hits not found in taxonomy files"]);;
        ret n_classified_bins
    | NoLineageWhitelisted =>
        write1 (Py.tsv [bin_; "unclassified";
                        "no lineage reached minimum bit-score support"]);;
        ret n_classified_bins
    | Lineages lineages lineages_scores based_on_n_ORFs =>
        let n_classified_bins := n_classified_bins + 1 in
        for_each (Py.enumerate lineages)
                 (lineage_body bin_ lineages lineages_scores based_on_n_ORFs)
                 tt;;
        ret n_classified_bins
    end.

(** The [with open(...)] block of [run]: both files are opened for
    writing, the headers go out, the single bin is classified. *)
Definition run_M : M nat :=
  write1 header1;;
  write2 header2;;
  let bin_list := [Py.rsplit_slash_last (bin_fasta args)] in
  for_each bin_list bin_body 0.

(** The files a run leaves behind and, when no exception escaped,
    [n_classified_bins]. *)
Definition run : outfiles * option nat := run_M (Outfiles [] []).

(** [if args.f < 0.5]: the closing warning about multiple
    classifications. *)
Definition warns_multiple : bool :=
  if Qlt_le_dec (f args) (1 # 2) then true else false.

End Run.

(** ** The [tax] module, from the specification

    [CAT_pack/tax.py] is not part of the sources at hand.  Its four
    functions are modelled from the specification of the classification
    core (ORFClassifier, LineageBuilder, Annotator and BinClassifier),
    with the signatures and the sentinel values that [run] relies on. *)

Module SpecTax.

(** Modelled from the spec: the walk of the LineageBuilder, missing with
    [tax.py].  It appends each visited id until a node is its own parent,
    root included, and fails when a parent lookup misses or the fuel runs
    out. *)
Fixpoint walk (fuel : nat) (taxid2parent : gmap string string) (taxid : string)
  : option (list string) :=
  match fuel with
  | O => None
  | S fuel' =>
      match taxid2parent !! taxid with
      | None => None
      | Some parent =>
          if String.eqb parent taxid then Some [taxid]
          else match walk fuel' taxid2parent parent with
               | Some rest => Some (taxid :: rest)
               | None => None
               end
      end
  end.

(** Modelled from the spec: [tax.find_lineage] (the LineageBuilder).  The
    fuel is the number of nodes of the tree: a walk that has not met the
    root by then is on a cycle and never returns. *)
Definition find_lineage (taxid : string) (taxid2parent : gmap string string)
  : option (list string) :=
  walk (size taxid2parent) taxid2parent taxid.

(** Modelled from the spec: [tax.star_lineage] (the Annotator) marks each
    entry of the lineage that is in the ambiguity set; the marker is the
    star the option [--no_stars] is named after. *)
Definition star_lineage (lineage : list string) (ambiguous : gset string)
  : list string :=
  map (fun taxid => if bool_decide (taxid ∈ ambiguous) then taxid ++ "*" else taxid)
      lineage.

(** An Unresolved outcome with its reason, in the form [run] recognises:
    a string that starts with ['no taxid found']. *)
Definition unresolved (reason : string) : string :=
  "no taxid found (" ++ reason ++ ")".

Definition mem (x : string) (l : list string) : bool :=
  existsb (String.eqb x) l.

(** Ancestor-chain intersection: the first id of the first chain that is on
    every other chain. *)
Definition common_ancestor (lineages : list (list string)) : option string :=
  match lineages with
  | [] => None
  | l :: ls => head (filter (fun t => forallb (mem t) ls) l)
  end.

Fixpoint all_lineages (taxids : list string) (taxid2parent : gmap string string)
  : option (list (list string)) :=
  match taxids with
  | [] => Some []
  | t :: ts =>
      match find_lineage t taxid2parent, all_lineages ts taxid2parent with
      | Some l, Some ls => Some (l :: ls)
      | _, _ => None
      end
  end.

(** [max] of a list of scores (0 for the empty list). *)
Definition Qmaximum (l : list Q) : Q :=
  match l with
  | [] => 0%Q
  | x :: rest => fold_left (fun a b => if Qle_bool a b then b else a) rest x
  end.

(** Modelled from the spec: [tax.find_LCA_for_ORF] (the ORFClassifier), on
    the hits that [shared.parse_tabular_alignment] kept for the ORF (the
    bit-score window is applied there, with [one_minus_r]).  Hits whose
    accession has no taxon id are dropped; if none is left the outcome is
    Unresolved; otherwise the answer is the common ancestor of the taxon
    ids found, with the top bit-score. *)
Definition find_LCA_for_ORF (hits : list hit)
    (fastaid2LCAtaxid taxid2parent : gmap string string)
  : option (string * Q) :=
  match hits with
  | [] => Some (unresolved "no hit", 0%Q)
  | _ =>
      let top := Qmaximum (map snd hits) in
      let taxids := omap (fun h : hit => fastaid2LCAtaxid !! fst h) hits in
      match taxids with
      | [] => Some (unresolved "no taxon id found among candidate hits", top)
      | _ =>
          match all_lineages taxids taxid2parent with
          | None => None
          | Some lineages =>
              match common_ancestor lineages with
              | None => None
              | Some taxid => Some (taxid, top)
              end
          end
      end
  end.

(** *** The BinClassifier *)

Definition Qsum (l : list Q) : Q := fold_right Qplus 0%Q l.

(** An entry is a resolved ORF: its lineage and its weight. *)
Definition entry : Type := list string * Q.

Definition through (node : string) (e : entry) : bool := mem node (fst e).

(** Sum of the weights of the entries whose lineage contains the node. *)
Definition weight_through (entries : list entry) (node : string) : Q :=
  Qsum (map snd (filter (through node) entries)).

Definition total_weight (entries : list entry) : Q := Qsum (map snd entries).

Definition support (entries : list entry) (node : string) : Q :=
  (weight_through entries node / total_weight entries)%Q.

(** The ids that appear in some expanded lineage, each once, in order of
    first appearance. *)
Fixpoint distinct (l : list string) : list string :=
  match l with
  | [] => []
  | x :: l' => x :: filter (fun y => negb (String.eqb x y)) (distinct l')
  end.

Definition nodes_of (entries : list entry) : list string :=
  distinct (concat (map fst entries)).

Fixpoint expand (LCAs_ORFs : list (string * Q)) (taxid2parent : gmap string string)
  : option (list entry) :=
  match LCAs_ORFs with
  | [] => Some []
  | (taxid, w) :: rest =>
      match find_lineage taxid taxid2parent, expand rest taxid2parent with
      | Some l, Some es => Some ((l, w) :: es)
      | _, _ => None
      end
  end.

(** A node qualifies when its support and that of each of its ancestors
    reaches [f]. *)
Definition qualifies (entries : list entry) (f : Q) (lineage : list string) : bool :=
  forallb (fun a => Qle_bool f (support entries a)) lineage.

(** A qualifying node is of maximal depth when no other qualifying node
    has it among its ancestors. *)
Definition maximal (entries : list entry) (f : Q)
    (candidates : list (list string)) (lineage : list string) : bool :=
  match lineage with
  | [] => false
  | node :: _ =>
      negb (existsb (fun other =>
                       match other with
                       | [] => false
                       | m :: ancestors =>
                           negb (String.eqb m node) && mem node ancestors
                           && qualifies entries f other
                       end)
                    candidates)
  end.

Definition selected_lineages (entries : list entry) (f : Q)
    (candidates : list (list string)) : list (list string) :=
  filter (fun l => qualifies entries f l && maximal entries f candidates l)
         candidates.

(** Unresolved ORFs take no part in the aggregation. *)
Definition resolved (e : string * Q) : bool :=
  negb (Py.startswith (fst e) "no taxid found").

(** Modelled from the spec: [tax.find_weighted_LCA] (the BinClassifier).
    Unresolved pairs are left out of the aggregation.  Step 1: with no
    resolved pair the answer is ['no ORFs with taxids found.'].  Steps 2 to
    4: the pairs are expanded to lineages and every node gets its support,
    the weight through it over the total weight (0 when the total is 0).
    Step 5: the lineages of the qualifying nodes of maximal depth are
    selected.  Step 6: with nothing selected the answer is
    ['no lineage whitelisted.'].  Step 7: otherwise the answer holds the
    selected lineages, the support of each of their nodes, and the number of
    entries whose lineage meets a selected node. *)
Definition find_weighted_LCA (LCAs_ORFs : list (string * Q))
    (taxid2parent : gmap string string) (f : Q) : option weighted_LCA :=
  match filter resolved LCAs_ORFs with
  | [] => Some NoORFsWithTaxids
  | rs =>
      match expand rs taxid2parent with
      | None => None
      | Some entries =>
          match all_lineages (nodes_of entries) taxid2parent with
          | None => None
          | Some candidates =>
              match selected_lineages entries f candidates with
              | [] => Some NoLineageWhitelisted
              | lineages =>
                  let scores := map (map (support entries)) lineages in
                  let n := length (filter
                                     (fun e => existsb (fun l =>
                                                  match l with
                                                  | [] => false
                                                  | node :: _ => through node e
                                                  end) lineages)
                                     entries) in
                  Some (Lineages lineages scores n)
              end
          end
      end
  end.

#[export] Instance spec_tax : Tax :=
  Build_Tax find_LCA_for_ORF find_lineage star_lineage find_weighted_LCA.

End SpecTax.

(** ** The options [-r] and [-f] of [parse_arguments] *)

Module Args.

(** [float(i)] for a small non-negative [int]. *)
Definition float_of_nat (i : nat) : float :=
  PrimFloat.of_uint63 (Uint63.of_Z (Z.of_nat i)).

(** [choices = [i for i in range(50)]] *)
Definition choices_r : list nat := seq 0 50.

(** [choices = [i / 100 for i in range(0, 100)]]: true division of two
    [int]s, correctly rounded to binary64. *)
Definition choices_f : list float :=
  map (fun i => PrimFloat.div (float_of_nat i) (float_of_nat 100)) (seq 0 100).

(** [argparse] converts the argument with [type=float] and then requires
    [value in choices]; membership is [==], between a [float] and an [int]
    the comparison of their exact values. *)
Definition accepts_r (value : float) : bool :=
  existsb (fun c => PrimFloat.eqb value (float_of_nat c)) choices_r.

Definition accepts_f (value : float) : bool :=
  existsb (fun c => PrimFloat.eqb value c) choices_f.

(** The exact value of a finite binary64 number, as [decimal.Decimal]
    takes it from a [float]. *)
Definition Decimal_of_float (x : float) : option Q :=
  match Prim2SF x with
  | S754_zero _ => Some 0%Q
  | S754_finite s m e =>
      let v := (inject_Z (Z.pos m) * Qpower 2 e)%Q in
      Some (Qred (if s then - v else v))
  | _ => None
  end.

(** [default=decimal.Decimal(5)] *)
Definition default_r : Q := 5%Q.

(** [default=decimal.Decimal(0.3)]: the [Decimal] of the [float] literal
    [0.3]. *)
#[warnings="-inexact-float"]
Definition default_f : option Q := Decimal_of_float 0.3%float.

End Args.

(** ** Worked inputs *)

Module Examples.

(** [str] of a bit-score without fractional part, the only kind the
    worked inputs use. *)
Definition str_whole (q : Q) : string := Py.str_Z (Qnum q / Z.pos (Qden q)).

(** The tree 1 -> 1 (root), 2 -> 1, 3 -> 2, 4 -> 2. *)
Definition tree : gmap string string :=
  <["1" := "1"]> (<["2" := "1"]> (<["3" := "2"]> (<["4" := "2"]> ∅))).

(** One contig with one ORF, and no alignment at all. *)
Definition T_no_hit : tables :=
  Tables ["c1"] (<["c1" := ["c1_1"]]> ∅) ∅ tree ∅ ∅.

(** One contig with one ORF whose only hit is to an accession that the
    accession index does not know. *)
Definition T_unmapped : tables :=
  Tables ["c1"] (<["c1" := ["c1_1"]]> ∅)
         (<["c1_1" := [("ACC9", 50%Q)]]> ∅) tree ∅ ∅.

(** Two ORFs that resolve to the siblings 3 (bit-score 100) and 4
    (bit-score 50); node 2 has several children. *)
Definition T_siblings (w3 w4 : Q) : tables :=
  Tables ["c2"; "c1"]
         (<["c1" := ["c1_1"]]> (<["c2" := ["c2_1"]]> ∅))
         (<["c1_1" := [("ACC3", w3)]]> (<["c2_1" := [("ACC4", w4)]]> ∅))
         tree
         (<["ACC3" := "3"]> (<["ACC4" := "4"]> ∅))
         {["2"]}.

Definition args_f (f : Q) : arguments := Arguments_ "/data/bins/bin.fa" f false.

End Examples.

(** ** Pure views of the loops of [run] *)

(** Lines produced up to the first failure, and whether all were. *)
Fixpoint rows_until {A} (row : A -> option string) (l : list A)
  : list string * bool :=
  match l with
  | [] => ([], true)
  | a :: rest =>
      match row a with
      | None => ([], false)
      | Some line => (line :: fst (rows_until row rest), snd (rows_until row rest))
      end
  end.

Section Views.

Context {tax : Tax}.
Variable str_bitscore : Q -> string.
Variable args : arguments.
Variable T : tables.

(** What one ORF contributes: its line of the per-ORF report and its
    entries of [LCAs_ORFs]; [None] when a [tax] function raises. *)
Definition ORF_row (bin_ ORF : string) : option (string * list (string * Q)) :=
  match ORF2hits T !! ORF with
  | None => Some (Py.tsv [ORF; bin_; "ORF has no hit to database"], [])
  | Some hits =>
      match find_LCA_for_ORF hits (fastaid2LCAtaxid T) (taxid2parent T) with
      | None => None
      | Some (taxid, top_bitscore) =>
          if Py.startswith taxid "no taxid found" then
            Some (Py.tsv [ORF; bin_; taxid; str_bitscore top_bitscore],
                  [(taxid, top_bitscore)])
          else
            match find_lineage taxid (taxid2parent T) with
            | None => None
            | Some lineage =>
                Some (Py.tsv [ORF; bin_; Py.join ";" (rev (stars args T lineage));
                              str_bitscore top_bitscore],
                      [(taxid, top_bitscore)])
            end
      end
  end.

(** The lines written and the entries gathered over a list of ORFs, up to
    the first ORF on which a [tax] function raises. *)
Fixpoint ORF_rows (bin_ : string) (ORFs : list string)
  : list string * option (list (string * Q)) :=
  match ORFs with
  | [] => ([], Some [])
  | ORF :: rest =>
      match ORF_row bin_ ORF with
      | None => ([], None)
      | Some (line, es) =>
          (line :: fst (ORF_rows bin_ rest),
           match snd (ORF_rows bin_ rest) with
           | Some es' => Some (es ++ es')%list
           | None => None
           end)
      end
  end.

(** The ORFs of the bin in the order of the report: contig by contig in
    sorted order, each contig's ORFs as [contig2ORFs] lists them. *)
Definition report_order : list string :=
  flat_map (fun contig => match contig2ORFs T !! contig with
                          | Some ORFs => ORFs
                          | None => []
                          end)
           (Py.sorted (contig_names T)).

Definition has_hits (ORF : string) : bool :=
  match ORF2hits T !! ORF with Some _ => true | None => false end.

(** The line of the per-bin report for the [i]-th lineage; [None] when
    [lineages_scores[i]] raises. *)
Definition lineage_row (bin_ : string) (lineages : list (list string))
    (lineages_scores : list (list Q)) (based_on_n_ORFs : nat)
    (il : nat * list string) : option string :=
  match lineages_scores !! fst il with
  | None => None
  | Some ss =>
      let reason :=
        "based on " ++ Py.str_nat based_on_n_ORFs ++ "/"
                    ++ Py.str_nat (total_n_ORFs T) ++ " ORFs" in
      let status :=
        if Nat.eqb (length lineages) 1 then "classified"
        else "classified (" ++ Py.str_nat (fst il + 1) ++ "/"
                            ++ Py.str_nat (length lineages) ++ ")" in
      Some (Py.tsv [bin_; status; reason;
                    Py.join ";" (rev (stars args T (snd il)));
                    Py.join ";" (rev (map Py.format_2f ss))])
  end.

(** What the bin adds to the first file once [LCAs_ORFs] is known, and the
    value of [n_classified_bins] ([None] when an exception escapes). *)
Definition bin_rows (bin_ : string) (LCAs_ORFs : list (string * Q))
  : list string * option nat :=
  if Nat.eqb (length LCAs_ORFs) 0 then
    ([Py.tsv [bin_; "unclassified"; "no hits to database"]], Some 0)
  else
    match find_weighted_LCA LCAs_ORFs (taxid2parent T) (f args) with
    | None => ([], None)
    | Some NoORFsWithTaxids =>
        ([Py.tsv [bin_; "unclassified"; "hits not found in taxonomy files"]],
         Some 0)
    | Some NoLineageWhitelisted =>
        ([Py.tsv [bin_; "unclassified";
                  "no lineage reached minimum bit-score support"]],
         Some 0)
    | Some (Lineages lineages scores n) =>
        let r := rows_until (lineage_row bin_ lineages scores n)
                            (Py.enumerate lineages) in
        (fst r, if snd r then Some 1 else None)
    end.

(** The name of the bin: the file name of [args.bin_fasta]. *)
Definition bin_name : string := Py.rsplit_slash_last (bin_fasta args).

(** The list [run] hands to [tax.find_weighted_LCA] (after testing it for
    emptiness); [None] when the per-ORF loop raised. *)
Definition LCAs_ORFs_of_run : option (list (string * Q)) :=
  snd (ORF_rows bin_name report_order).

End Views.

(** ** Vocabulary of the statements *)

Definition is_digit (c : ascii) : bool :=
  (48 <=? nat_of_ascii c)%nat && (nat_of_ascii c <=? 57)%nat.

Fixpoint all_digits (s : string) : bool :=
  match s with
  | EmptyString => true
  | String c s' => is_digit c && all_digits s'
  end.

(** A number written with two decimals: an optional sign, at least one
    digit, a point and exactly two digits. *)
Definition two_decimals (s : string) : Prop :=
  exists sign int d1 d2,
    s = sign ++ int ++ "." ++ String d1 (String d2 EmptyString)
    /\ (sign = "" \/ sign = "-")
    /\ int <> "" /\ all_digits int = true
    /\ is_digit d1 = true /\ is_digit d2 = true.

(** The shape of a row of the per-ORF report, for an ORF of the bin. *)
Definition ORF_report_row {tax : Tax} (str_bitscore : Q -> string)
    (args : arguments) (T : tables) (ORF line : string) : Prop :=
  (ORF2hits T !! ORF = None
   /\ line = Py.tsv [ORF; bin_name args; "ORF has no hit to database"])
  \/ (exists hits taxid top,
        ORF2hits T !! ORF = Some hits
        /\ find_LCA_for_ORF hits (fastaid2LCAtaxid T) (taxid2parent T) = Some (taxid, top)
        /\ ((Py.startswith taxid "no taxid found" = true
             /\ line = Py.tsv [ORF; bin_name args; taxid; str_bitscore top])
            \/ (Py.startswith taxid "no taxid found" = false
                /\ exists lineage,
                     find_lineage taxid (taxid2parent T) = Some lineage
                     /\ line = Py.tsv [ORF; bin_name args;
                                       Py.join ";" (rev (stars args T lineage));
                                       str_bitscore top]))).

(** What the [j]-th data row of the per-bin report is: an unclassified
    row, or the row of the [j]-th lineage returned. *)
Definition bin_report_row {tax : Tax} (str_bitscore : Q -> string)
    (args : arguments) (T : tables) (j : nat) (line : string) : Prop :=
  (exists reason,
     j = 0 /\ line = Py.tsv [bin_name args; "unclassified"; reason])
  \/ (exists L lineages scores n lineage ss status,
        LCAs_ORFs_of_run str_bitscore args T = Some L
        /\ find_weighted_LCA L (taxid2parent T) (f args)
           = Some (Lineages lineages scores n)
        /\ lineages !! j = Some lineage /\ scores !! j = Some ss
        /\ line = Py.tsv [bin_name args; status;
                          "based on " ++ Py.str_nat n ++ "/"
                             ++ Py.str_nat (total_n_ORFs T) ++ " ORFs";
                          Py.join ";" (rev (stars args T lineage));
                          Py.join ";" (rev (map Py.format_2f ss))]
        /\ ((length lineages = 1 /\ status = "classified")
            \/ (2 <= length lineages
                /\ status = "classified (" ++ Py.str_nat (j + 1) ++ "/"
                              ++ Py.str_nat (length lineages) ++ ")"))
        /\ Forall two_decimals (map Py.format_2f ss)).

(** The tables with [contig_names] iterated in another order. *)
Definition with_contig_names (T : tables) (names : list string) : tables :=
  Tables names (contig2ORFs T) (ORF2hits T) (taxid2parent T)
         (fastaid2LCAtaxid T) (taxids_with_multiple_offspring T).

(** The same [tax] module with another [star_lineage]. *)
Definition with_star (tax : Tax)
    (star : list string -> gset string -> list string) : Tax :=
  Build_Tax (@find_LCA_for_ORF tax) (@find_lineage tax) star (@find_weighted_LCA tax).

(** The same arguments with another value of [--no_stars]. *)
Definition with_no_stars (args : arguments) (b : bool) : arguments :=
  Arguments_ (bin_fasta args) (f args) b.

(** The rows of one ORF in the per-ORF report written with stars ([line1])
    and in the one written with [--no_stars] ([line2]).  Both are the
    record of the same ORF id, bin id and top bit-score; the third field is
    the same reason or taxon-less outcome in both, or the lineage of the
    same taxon id, after [star_lineage] in the first and as [find_lineage]
    returned it in the second. *)
Definition ORF_rows_differ_in_stars {tax : Tax} (str_bitscore : Q -> string)
    (args : arguments) (T : tables) (ORF line1 line2 : string) : Prop :=
  (ORF2hits T !! ORF = None
   /\ line1 = Py.tsv [ORF; bin_name args; "ORF has no hit to database"]
   /\ line2 = Py.tsv [ORF; bin_name args; "ORF has no hit to database"])
  \/ (exists hits taxid top,
        ORF2hits T !! ORF = Some hits
        /\ find_LCA_for_ORF hits (fastaid2LCAtaxid T) (taxid2parent T) = Some (taxid, top)
        /\ ((Py.startswith taxid "no taxid found" = true
             /\ line1 = Py.tsv [ORF; bin_name args; taxid; str_bitscore top]
             /\ line2 = Py.tsv [ORF; bin_name args; taxid; str_bitscore top])
            \/ (Py.startswith taxid "no taxid found" = false
                /\ exists lineage,
                     find_lineage taxid (taxid2parent T) = Some lineage
                     /\ line1
                        = Py.tsv [ORF; bin_name args;
                                  Py.join ";"
                                    (rev (star_lineage lineage
                                            (taxids_with_multiple_offspring T)));
                                  str_bitscore top]
                     /\ line2
                        = Py.tsv [ORF; bin_name args; Py.join ";" (rev lineage);
                                  str_bitscore top]))).

(** The [j]-th data rows of the per-bin report written with stars
    ([line1]) and of the one written with [--no_stars] ([line2]): the same
    unclassified row, or the rows of the [j]-th lineage returned, with the
    same bin id, status, reason and support scores, the lineage written
    after [star_lineage] in the first and as it was returned in the
    second. *)
Definition bin_rows_differ_in_stars {tax : Tax} (str_bitscore : Q -> string)
    (args : arguments) (T : tables) (j : nat) (line1 line2 : string) : Prop :=
  (exists reason,
     j = 0
     /\ (reason = "no hits to database"
         \/ reason = "hits not found in taxonomy files"
         \/ reason = "no lineage reached minimum bit-score support")
     /\ line1 = Py.tsv [bin_name args; "unclassified"; reason]
     /\ line2 = Py.tsv [bin_name args; "unclassified"; reason])
  \/ (exists L lineages scores n lineage ss,
        LCAs_ORFs_of_run str_bitscore args T = Some L
        /\ find_weighted_LCA L (taxid2parent T) (f args)
           = Some (Lineages lineages scores n)
        /\ lineages !! j = Some lineage /\ scores !! j = Some ss
        /\ let status :=
             if Nat.eqb (length lineages) 1 then "classified"
             else "classified (" ++ Py.str_nat (j + 1) ++ "/"
                                 ++ Py.str_nat (length lineages) ++ ")" in
           let reason :=
             "based on " ++ Py.str_nat n ++ "/"
                         ++ Py.str_nat (total_n_ORFs T) ++ " ORFs" in
           let scores_field := Py.join ";" (rev (map Py.format_2f ss)) in
           line1 = Py.tsv [bin_name args; status; reason;
                           Py.join ";"
                             (rev (star_lineage lineage
                                     (taxids_with_multiple_offspring T)));
                           scores_field]
           /\ line2 = Py.tsv [bin_name args; status; reason;
                              Py.join ";" (rev lineage); scores_field]).

(** The data model's invariant on the hit table: bit-scores are not
    negative. *)
Definition nonneg_bitscores (T : tables) : Prop :=
  forall ORF hits, ORF2hits T !! ORF = Some hits -> Forall (fun h : hit => 0 <= snd h)%Q hits.

(** ** The rest of [parse_arguments]: extra arguments and [--top] *)

Module Cli.

(** [[arg for (i, arg) in enumerate(extra_args) if (i, arg) != (0, 'bin')]] *)
Definition strip_bin (extra_args : list string) : list string :=
  map snd
      (List.filter (fun ia : nat * string =>
                      negb (Nat.eqb (fst ia) 0 && String.eqb (snd ia) "bin"))
                   (Py.enumerate extra_args)).

(** [if len(extra_args) > 0: sys.exit('error: too much arguments ...')] *)
Definition too_much_arguments (extra_args : list string) : bool :=
  (0 <? length (strip_bin extra_args))%nat.





End Cli.

(** ** The start of [run]: the steps to carry out and the pre-flight checks *)

Module Preflight.

(** Truth value of an option that holds a path or [None]. *)
Definition truthy (o : option string) : bool :=
  match o with
  | Some (String _ _) => true
  | _ => false
  end.

(** [x in step_list] *)
Definition In_list (x : string) (l : list string) : bool := existsb (String.eqb x) l.

(** "Check at which state to start": the [if]/[elif] chain on
    [args.proteins_fasta] and [args.alignment_file], then
    [step_list.append('classify')].  [None] is [sys.exit(1)]. *)
Definition step_list_of (proteins_fasta alignment_file : option string)
  : option (list string) :=
  let p := truthy proteins_fasta in
  let a := truthy alignment_file in
  let step_list : list string := [] in
  let after_chain :=
    if negb p && negb a then
      Some ((step_list ++ ["predict_proteins"]) ++ ["align"])%list
    else if p && negb a then Some (step_list ++ ["align"])%list
    else if p && a then Some step_list
    else if negb p && a then None
    else Some step_list in
  match after_chain with
  | Some step_list => Some (step_list ++ ["classify"])%list
  | None => None
  end.

(** The arguments the pre-flight checks read; the last five are the paths
    that [shared.expand_arguments] adds. *)
Record options := Options {
  bin_fasta : string;
  out_prefix : string;
  proteins_fasta : option string;
  alignment_file : option string;
  path_to_prodigal : string;
  path_to_diamond : string;
  taxonomy_folder : string;
  database_folder : string;
  force : bool;
  nodes_dmp : string;
  names_dmp : string;
  diamond_database : string;
  fastaid2LCAtaxid_file : string;
  taxids_with_multiple_offspring_file : string
}.

(** The functions of the [check] module that the pre-flight consults; each
    answers [True] when it found an error. *)
Record checks := Checks {
  check_out_prefix : string -> bool;
  check_bin_fasta : string -> bool;
  check_prodigal_binaries : string -> bool;
  check_diamond_binaries : string -> bool;
  check_output_file : string -> bool;
  check_folders_for_run :
    string -> string -> string -> string -> string -> string -> string ->
    list string -> bool;
  check_fasta : option string -> bool
}.

(** The attributes set on [args] during the pre-flight. *)
Record files := Files {
  proteins_fasta' : option string;
  proteins_gff : option string;
  alignment_file' : option string;
  bin2classification_output_file : string;
  ORF2LCA_output_file : string
}.

(** Lines 325 to 400 of [run]: the list [errors] and the file names. *)
Definition preflight (C : checks) (o : options) (step_list : list string)
  : list bool * files :=
  let errors : list bool := [] in
  let errors := (errors ++ [check_out_prefix C (out_prefix o)])%list in
  let errors := (errors ++ [check_bin_fasta C (bin_fasta o)])%list in
  let '(errors, proteins_fasta, proteins_gff) :=
    if In_list "predict_proteins" step_list then
      let errors :=
        (errors ++ [check_prodigal_binaries C (path_to_prodigal o)])%list in
      let proteins_fasta := out_prefix o ++ ".predicted_proteins.faa" in
      let proteins_gff := out_prefix o ++ ".predicted_proteins.gff" in
      let errors :=
        if negb (force o) then
          ((errors ++ [check_output_file C proteins_fasta])
             ++ [check_output_file C proteins_gff])%list
        else errors in
      (errors, Some proteins_fasta, Some proteins_gff)
    else (errors, proteins_fasta o, None) in
  let '(errors, alignment_file) :=
    if In_list "align" step_list then
      let errors :=
        (errors ++ [check_diamond_binaries C (path_to_diamond o)])%list in
      let alignment_file := out_prefix o ++ ".alignment.diamond" in
      let errors :=
        if negb (force o) then (errors ++ [check_output_file C alignment_file])%list
        else errors in
      (errors, Some alignment_file)
    else (errors, alignment_file o) in
  let errors :=
    (errors ++ [check_folders_for_run C (taxonomy_folder o) (nodes_dmp o) (names_dmp o)
                  (database_folder o) (diamond_database o)
                  (fastaid2LCAtaxid_file o)
                  (taxids_with_multiple_offspring_file o) step_list])%list in
  let bin2classification_output_file := out_prefix o ++ ".bin2classification.txt" in
  let ORF2LCA_output_file := out_prefix o ++ ".ORF2LCA.txt" in
  let errors :=
    if negb (force o) then
      ((errors ++ [check_output_file C bin2classification_output_file])
         ++ [check_output_file C ORF2LCA_output_file])%list
    else errors in
  let errors :=
    if negb (In_list "predict_proteins" step_list) then
      (errors ++ [check_fasta C proteins_fasta])%list
    else errors in
  (errors,
   Files proteins_fasta proteins_gff alignment_file
         bin2classification_output_file ORF2LCA_output_file).

(** [if True in errors: sys.exit(1)] *)
Definition preflight_exits (C : checks) (o : options) (step_list : list string) : bool :=
  existsb (fun e => e) (fst (preflight C o step_list)).

(** The files the rest of [run] writes: the two outputs handed to
    [shared.run_prodigal] when proteins are predicted, the output handed to
    [shared.run_diamond] when the alignment is made, and the two reports
    opened for writing. *)
Definition written_files (step_list : list string) (F : files) : list (option string) :=
  ((if In_list "predict_proteins" step_list
    then [proteins_fasta' F; proteins_gff F] else [])
     ++ (if In_list "align" step_list then [alignment_file' F] else [])
     ++ [Some (bin2classification_output_file F); Some (ORF2LCA_output_file F)])%list.

End Preflight.

(** ** When the per-ORF loop raises *)

(** A [tax] function raises on the ORF: [find_LCA_for_ORF] on its hits, or
    [find_lineage] on the taxon id found. *)
Definition ORF_raises {tax : Tax} (T : tables) (ORF : string) : Prop :=
  exists hits,
    ORF2hits T !! ORF = Some hits
    /\ (find_LCA_for_ORF hits (fastaid2LCAtaxid T) (taxid2parent T) = None
        \/ exists taxid top,
             find_LCA_for_ORF hits (fastaid2LCAtaxid T) (taxid2parent T)
             = Some (taxid, top)
             /\ Py.startswith taxid "no taxid found" = false
             /\ find_lineage taxid (taxid2parent T) = None).

(** The same arguments with another support fraction. *)
Definition with_f (args : arguments) (f' : Q) : arguments :=
  Arguments_ (bin_fasta args) f' (no_stars args).

(** The same checks with other answers of some of them. *)
Definition with_check_output_file (C : Preflight.checks) (g : string -> bool)
  : Preflight.checks :=
  Preflight.Checks (Preflight.check_out_prefix C) (Preflight.check_bin_fasta C)
                   (Preflight.check_prodigal_binaries C)
                   (Preflight.check_diamond_binaries C) g
                   (Preflight.check_folders_for_run C) (Preflight.check_fasta C).

Definition with_check_binaries (C : Preflight.checks) (prodigal diamond : string -> bool)
  : Preflight.checks :=
  Preflight.Checks (Preflight.check_out_prefix C) (Preflight.check_bin_fasta C)
                   prodigal diamond (Preflight.check_output_file C)
                   (Preflight.check_folders_for_run C) (Preflight.check_fasta C).

Definition with_check_fasta (C : Preflight.checks) (g : option string -> bool)
  : Preflight.checks :=
  Preflight.Checks (Preflight.check_out_prefix C) (Preflight.check_bin_fasta C)
                   (Preflight.check_prodigal_binaries C)
                   (Preflight.check_diamond_binaries C)
                   (Preflight.check_output_file C)
                   (Preflight.check_folders_for_run C) g.

(** ** More worked inputs *)

Module MoreExamples.

(** One contig with two ORFs; the second one hits an accession whose taxon
    id, 9, is not in the tree. *)
Definition T_dangling : tables :=
  Tables ["c1"] (<["c1" := ["c1_1"; "c1_2"]]> ∅)
         (<["c1_1" := [("ACC3", 100%Q)]]> (<["c1_2" := [("ACC9", 50%Q)]]> ∅))
         Examples.tree
         (<["ACC3" := "3"]> (<["ACC9" := "9"]> ∅))
         ∅.

End MoreExamples.

(** The same [tax] module with another [find_weighted_LCA]. *)
Definition with_weighted_LCA (tax : Tax)
    (g : list (string * Q) -> gmap string string -> Q -> option weighted_LCA) : Tax :=
  Build_Tax (@find_LCA_for_ORF tax) (@find_lineage tax) (@star_lineage tax) g.

(** * Properties *)

(** ** Loops *)

Lemma for_each_app {A S} (l1 l2 : list A) (body : A -> S -> M S) (acc : S) (s : outfiles) :
  for_each (l1 ++ l2)%list body acc s
  = bind (for_each l1 body acc) (for_each l2 body) s.
Proof.
  revert acc s. induction l1 as [|x l1 IH]; intros acc s; simpl.
  - reflexivity.
  - unfold bind. destruct (body x acc s) as [s' [a|]]; [|reflexivity].
    rewrite IH. reflexivity.
Qed.

(** ** A pure view of the per-ORF loop *)

Section RunFacts.

Context {tax : Tax}.
Variable str_bitscore : Q -> string.
Variable args : arguments.
Variable T : tables.

Lemma ORF_body_row bin_ ORF acc s :
  ORF_body str_bitscore args T bin_ ORF acc s
  = match ORF_row str_bitscore args T bin_ ORF with
    | Some (line, es) => (Outfiles (outf1 s) (outf2 s ++ [line])%list, Some (acc ++ es)%list)
    | None => (s, None)
    end.
Proof.
  unfold ORF_body, ORF_row.
  destruct (ORF2hits T !! ORF) as [hits|]; simpl.
  - unfold mbind, M_bind, bind, call, mret.
    destruct (find_LCA_for_ORF hits _ _) as [[taxid top]|]; [|reflexivity].
    destruct (Py.startswith taxid _); simpl.
    + reflexivity.
    + destruct (find_lineage taxid _); reflexivity.
  - unfold mbind, M_bind, bind; simpl. unfold ret. rewrite app_nil_r. reflexivity.
Qed.

Lemma for_each_ORF_rows bin_ ORFs acc s :
  for_each ORFs (ORF_body str_bitscore args T bin_) acc s
  = (Outfiles (outf1 s) (outf2 s ++ fst (ORF_rows str_bitscore args T bin_ ORFs))%list,
     match snd (ORF_rows str_bitscore args T bin_ ORFs) with
     | Some es => Some (acc ++ es)%list
     | None => None
     end).
Proof.
  revert acc s. induction ORFs as [|ORF rest IH]; intros acc s; simpl.
  - unfold ret. rewrite !app_nil_r. destruct s; reflexivity.
  - unfold bind. rewrite ORF_body_row.
    destruct (ORF_row str_bitscore args T bin_ ORF) as [[line es]|]; simpl.
    + rewrite IH. simpl. rewrite <- app_assoc. simpl.
      destruct (snd (ORF_rows str_bitscore args T bin_ rest)); [rewrite <- app_assoc|]; reflexivity.
    + rewrite app_nil_r. destruct s; reflexivity.
Qed.

Lemma ORF_rows_app bin_ l1 l2 :
  ORF_rows str_bitscore args T bin_ (l1 ++ l2)%list
  = match snd (ORF_rows str_bitscore args T bin_ l1) with
    | Some es1 =>
        ((fst (ORF_rows str_bitscore args T bin_ l1) ++ fst (ORF_rows str_bitscore args T bin_ l2))%list,
         match snd (ORF_rows str_bitscore args T bin_ l2) with
         | Some es2 => Some (es1 ++ es2)%list
         | None => None
         end)
    | None => ORF_rows str_bitscore args T bin_ l1
    end.
Proof.
  induction l1 as [|ORF l1 IH]; simpl.
  - destruct (ORF_rows str_bitscore args T bin_ l2) as [lines [es|]]; reflexivity.
  - destruct (ORF_row str_bitscore args T bin_ ORF) as [[line es]|]; simpl; [|reflexivity].
    rewrite IH. destruct (snd (ORF_rows str_bitscore args T bin_ l1)) as [es1|] eqn:E1; simpl.
    + destruct (snd (ORF_rows str_bitscore args T bin_ l2)); [rewrite <- app_assoc|]; reflexivity.
    + rewrite E1. reflexivity.
Qed.

Lemma for_each_contigs bin_ contigs acc s :
  for_each contigs (contig_body str_bitscore args T bin_) acc s
  = for_each (flat_map (fun contig => match contig2ORFs T !! contig with
                                      | Some ORFs => ORFs
                                      | None => []
                                      end) contigs)
             (ORF_body str_bitscore args T bin_) acc s.
Proof.
  revert acc s. induction contigs as [|c contigs IH]; intros acc s; simpl.
  - reflexivity.
  - rewrite for_each_app. unfold bind, contig_body at 1.
    destruct (contig2ORFs T !! c) as [ORFs|]; simpl.
    + destruct (for_each ORFs _ acc s) as [s' [a|]]; [apply IH | reflexivity].
    + apply IH.
Qed.

(** The per-ORF loop writes the lines of [(report_order T)] to the second file
    and returns the entries gathered. *)
Lemma ORF_loop_rows bin_ s :
  ORF_loop str_bitscore args T bin_ s
  = (Outfiles (outf1 s) (outf2 s ++ fst (ORF_rows str_bitscore args T bin_ (report_order T)))%list,
     snd (ORF_rows str_bitscore args T bin_ (report_order T))).
Proof.
  unfold ORF_loop. rewrite for_each_contigs, for_each_ORF_rows.
  fold (report_order T). destruct (snd (ORF_rows str_bitscore args T bin_ (report_order T))); reflexivity.
Qed.

(** ** A pure view of the per-bin rows *)

Lemma lineage_body_row bin_ lineages scores n il u s :
  lineage_body args T bin_ lineages scores n il u s
  = match lineage_row args T bin_ lineages scores n il with
    | Some line => (Outfiles (outf1 s ++ [line])%list (outf2 s), Some tt)
    | None => (s, None)
    end.
Proof.
  unfold lineage_body, lineage_row. destruct il as [i lineage]; simpl.
  unfold mbind, M_bind, bind, call.
  destruct (scores !! i) as [ss|]; [|reflexivity].
  destruct (Nat.eqb (length lineages) 1); reflexivity.
Qed.

Lemma for_each_lineage_rows bin_ lineages scores n ils u s :
  for_each ils (lineage_body args T bin_ lineages scores n) u s
  = (Outfiles (outf1 s ++ fst (rows_until (lineage_row args T bin_ lineages scores n) ils))%list
              (outf2 s),
     if snd (rows_until (lineage_row args T bin_ lineages scores n) ils)
     then Some tt else None).
Proof.
  revert u s. induction ils as [|il ils IH]; intros u s; simpl.
  - unfold ret. rewrite app_nil_r. destruct s, u; reflexivity.
  - unfold bind. rewrite lineage_body_row.
    destruct (lineage_row args T bin_ lineages scores n il) as [line|]; simpl.
    + rewrite IH. simpl. rewrite <- app_assoc. reflexivity.
    + rewrite app_nil_r. destruct s; reflexivity.
Qed.

Lemma bin_body_rows bin_ n0 s :
  bin_body str_bitscore args T bin_ n0 s
  = match snd (ORF_rows str_bitscore args T bin_ (report_order T)) with
    | None =>
        (Outfiles (outf1 s) (outf2 s ++ fst (ORF_rows str_bitscore args T bin_ (report_order T)))%list, None)
    | Some LCAs_ORFs =>
        (Outfiles (outf1 s ++ fst (bin_rows args T bin_ LCAs_ORFs))%list
                  (outf2 s ++ fst (ORF_rows str_bitscore args T bin_ (report_order T)))%list,
         match snd (bin_rows args T bin_ LCAs_ORFs) with
         | Some k => Some (n0 + k)
         | None => None
         end)
    end.
Proof.
  unfold bin_body, mbind, M_bind, bind. rewrite ORF_loop_rows.
  destruct (snd (ORF_rows str_bitscore args T bin_ (report_order T))) as [L|]; [|reflexivity].
  unfold bin_rows. destruct (Nat.eqb (length L) 0); simpl.
  - unfold ret. rewrite Nat.add_0_r. reflexivity.
  - unfold call.
    destruct (find_weighted_LCA L (taxid2parent T) (f args)) as [[| |ls sc n]|]; simpl.
    + unfold ret. rewrite Nat.add_0_r. reflexivity.
    + unfold ret. rewrite Nat.add_0_r. reflexivity.
    + rewrite for_each_lineage_rows. simpl.
      destruct (snd (rows_until _ _)); reflexivity.
    + rewrite app_nil_r. reflexivity.
Qed.

(** The whole run, read off the pure views. *)
Lemma run_rows :
  run str_bitscore args T
  = match (LCAs_ORFs_of_run str_bitscore args T) with
    | None =>
        (Outfiles [header1] (header2 :: fst (ORF_rows str_bitscore args T (bin_name args) (report_order T))), None)
    | Some LCAs_ORFs =>
        (Outfiles (header1 :: fst (bin_rows args T (bin_name args) LCAs_ORFs))
                  (header2 :: fst (ORF_rows str_bitscore args T (bin_name args) (report_order T))),
         snd (bin_rows args T (bin_name args) LCAs_ORFs))
    end.
Proof.
  unfold run, run_M, mbind, M_bind, bind, LCAs_ORFs_of_run. simpl.
  fold (bin_name args). unfold bind. rewrite bin_body_rows. simpl.
  destruct (snd (ORF_rows str_bitscore args T (bin_name args) (report_order T))) as [L|]; [|reflexivity].
  simpl. destruct (snd (bin_rows args T (bin_name args) L)); reflexivity.
Qed.

End RunFacts.

(** ** What a row of the per-ORF report is *)

Section RowFacts.

Context {tax : Tax}.
Variable str_bitscore : Q -> string.
Variable args : arguments.
Variable T : tables.

Lemma ORF_row_inv bin_ ORF line es :
  ORF_row str_bitscore args T bin_ ORF = Some (line, es) ->
  (ORF2hits T !! ORF = None
   /\ line = Py.tsv [ORF; bin_; "ORF has no hit to database"] /\ es = [])
  \/ (exists hits taxid top,
        ORF2hits T !! ORF = Some hits
        /\ find_LCA_for_ORF hits (fastaid2LCAtaxid T) (taxid2parent T) = Some (taxid, top)
        /\ es = [(taxid, top)]
        /\ ((Py.startswith taxid "no taxid found" = true
             /\ line = Py.tsv [ORF; bin_; taxid; str_bitscore top])
            \/ (Py.startswith taxid "no taxid found" = false
                /\ exists lineage,
                     find_lineage taxid (taxid2parent T) = Some lineage
                     /\ line = Py.tsv [ORF; bin_;
                                       Py.join ";" (rev (stars args T lineage));
                                       str_bitscore top]))).
Proof.
  unfold ORF_row. intros H.
  destruct (ORF2hits T !! ORF) as [hits|] eqn:Hh.
  - right.
    destruct (find_LCA_for_ORF hits _ _) as [[taxid top]|] eqn:HL; [|discriminate].
    exists hits, taxid, top. split; [reflexivity|]. split; [exact HL|].
    destruct (Py.startswith taxid _) eqn:Hp.
    + injection H as <- <-. auto.
    + destruct (find_lineage taxid _) as [lineage|] eqn:Hl; [|discriminate].
      injection H as <- <-. split; [reflexivity|]. right. split; [reflexivity|].
      exists lineage. split; reflexivity.
  - left. injection H as <- <-. auto.
Qed.

End RowFacts.

(** ** The per-ORF report and the list handed to the aggregator *)

Section OrfReport.

Context {tax : Tax}.
Variable str_bitscore : Q -> string.
Variable args : arguments.
Variable T : tables.

(** Every line written by the per-ORF loop is the row of one of the ORFs. *)
Lemma ORF_rows_lines bin_ l line :
  line ∈ fst (ORF_rows str_bitscore args T bin_ l) ->
  exists ORF es, ORF ∈ l /\ ORF_row str_bitscore args T bin_ ORF = Some (line, es).
Proof.
  induction l as [|ORF l IH]; simpl.
  - intros H. inversion H.
  - destruct (ORF_row str_bitscore args T bin_ ORF) as [[line0 es0]|] eqn:E; simpl.
    + intros H. apply elem_of_cons in H as [-> | H].
      * exists ORF, es0. split; [left | exact E].
      * destruct (IH H) as (ORF' & es & Hin & Hrow).
        exists ORF', es. split; [right; exact Hin | exact Hrow].
    + intros H. inversion H.
Qed.

(** When the loop finishes, every ORF has its row in the file and its
    entries in the list. *)
Lemma ORF_rows_complete bin_ l L ORF :
  snd (ORF_rows str_bitscore args T bin_ l) = Some L ->
  ORF ∈ l ->
  exists line es,
    ORF_row str_bitscore args T bin_ ORF = Some (line, es)
    /\ line ∈ fst (ORF_rows str_bitscore args T bin_ l)
    /\ (forall e, e ∈ es -> e ∈ L).
Proof.
  revert L. induction l as [|ORF0 l IH]; intros L; simpl.
  - intros _ H. inversion H.
  - destruct (ORF_row str_bitscore args T bin_ ORF0) as [[line0 es0]|] eqn:E; simpl;
      [|discriminate].
    destruct (snd (ORF_rows str_bitscore args T bin_ l)) as [L'|] eqn:E'; [|discriminate].
    intros [= <-] H. apply elem_of_cons in H as [-> | H].
    + exists line0, es0. split; [exact E|]. split; [left|].
      intros e He. apply elem_of_app. left. exact He.
    + destruct (IH L' eq_refl H) as (line & es & Hrow & Hin & Hsub).
      exists line, es. split; [exact Hrow|]. split; [right; exact Hin|].
      intros e He. apply elem_of_app. right. apply Hsub, He.
Qed.

(** The list gathered holds, in order, what [find_LCA_for_ORF] returned
    for each ORF that has hits. *)
Lemma ORF_rows_entries bin_ l L :
  snd (ORF_rows str_bitscore args T bin_ l) = Some L ->
  Forall2 (fun ORF e =>
             exists hits,
               ORF2hits T !! ORF = Some hits
               /\ find_LCA_for_ORF hits (fastaid2LCAtaxid T) (taxid2parent T) = Some e)
          (filter (has_hits T) l) L.
Proof.
  revert L. induction l as [|ORF l IH]; intros L; simpl.
  - intros [= <-]. constructor.
  - destruct (ORF_row str_bitscore args T bin_ ORF) as [[line es]|] eqn:E; simpl;
      [|discriminate].
    destruct (snd (ORF_rows str_bitscore args T bin_ l)) as [L'|] eqn:E'; [|discriminate].
    intros [= <-]. specialize (IH L' eq_refl).
    apply ORF_row_inv in E as [(Hnone & _ & ->) | (hits & taxid & top & Hh & HL & -> & _)].
    + rewrite filter_cons_False; [exact IH|].
      unfold has_hits. rewrite Hnone. simpl. tauto.
    + rewrite filter_cons_True; [|unfold has_hits; rewrite Hh; exact I].
      simpl. constructor; [|exact IH].
      exists hits. split; [exact Hh | exact HL].
Qed.

End OrfReport.

(** The per-ORF report of a run: the header, then the rows of the loop. *)
Lemma run_outf2 {tax : Tax} str_bitscore args T :
  outf2 (fst (run str_bitscore args T))
  = header2 :: fst (ORF_rows str_bitscore args T (bin_name args) (report_order T)).
Proof.
  rewrite run_rows. destruct (LCAs_ORFs_of_run str_bitscore args T); reflexivity.
Qed.

Lemma ORF_row_report_row {tax : Tax} str_bitscore args T ORF line es :
  ORF_row str_bitscore args T (bin_name args) ORF = Some (line, es) ->
  ORF_report_row str_bitscore args T ORF line.
Proof.
  intros H. apply ORF_row_inv in H.
  destruct H as [(Hn & -> & _) | (hits & taxid & top & Hh & HL & _ & Hcase)].
  - left. auto.
  - right. exists hits, taxid, top. auto.
Qed.

(** C1, as amended.  The list handed to [tax.find_weighted_LCA] holds, in
    the order of the report, the pair [(taxid, top_bitscore)] that
    [tax.find_LCA_for_ORF] returned for every ORF that has hits, whether the
    taxid is a taxon or a ['no taxid found'] sentinel; only ORFs without a
    hit are left out.  An ORF whose hits yield no taxon id is reported in
    the per-ORF file with its sentinel and its top bit-score, and its pair
    is in the list. *)
Theorem C1_aggregator_input {tax : Tax} str_bitscore args T L :
  LCAs_ORFs_of_run str_bitscore args T = Some L ->
  Forall2 (fun ORF e =>
             exists hits,
               ORF2hits T !! ORF = Some hits
               /\ find_LCA_for_ORF hits (fastaid2LCAtaxid T) (taxid2parent T) = Some e)
          (filter (has_hits T) (report_order T)) L
  /\ (forall ORF hits taxid top,
        ORF ∈ report_order T ->
        ORF2hits T !! ORF = Some hits ->
        find_LCA_for_ORF hits (fastaid2LCAtaxid T) (taxid2parent T) = Some (taxid, top) ->
        Py.startswith taxid "no taxid found" = true ->
        (taxid, top) ∈ L
        /\ Py.tsv [ORF; bin_name args; taxid; str_bitscore top]
             ∈ outf2 (fst (run str_bitscore args T))).
Proof.
  unfold LCAs_ORFs_of_run. intros HL. split.
  - eapply ORF_rows_entries; exact HL.
  - intros ORF hits taxid top Hin Hh Hf Hp.
    destruct (ORF_rows_complete _ _ _ _ _ _ _ HL Hin) as (line & es & Hrow & Hline & Hsub).
    apply ORF_row_inv in Hrow.
    destruct Hrow as [(Hn & _) | (hits' & taxid' & top' & Hh' & Hf' & -> & Hcase)].
    + congruence.
    + assert (hits' = hits) as -> by congruence.
      assert (taxid' = taxid /\ top' = top) as [-> ->] by (split; congruence).
      split.
      * apply Hsub. left.
      * rewrite run_outf2. right.
        destruct Hcase as [(_ & ->) | (Hp' & _)]; [exact Hline | congruence].
Qed.

(** C5, as amended.  Every line of the per-ORF report after the header is
    the row of an ORF of the bin.  For an ORF with hits the row has the four
    fields ORF id, bin id, lineage-or-reason and top bit-score, the lineage
    joined with [;] from the root down to the taxon; for an ORF with no hit
    the row has three fields: ORF id, bin id and the reason, with no
    bit-score field. *)
Theorem C5_ORF_report_rows {tax : Tax} str_bitscore args T :
  exists rows,
    outf2 (fst (run str_bitscore args T)) = header2 :: rows
    /\ Forall (fun line =>
                 exists ORF,
                   ORF ∈ report_order T
                   /\ ORF_report_row str_bitscore args T ORF line)
              rows.
Proof.
  rewrite run_outf2. eexists. split; [reflexivity|].
  apply Forall_forall. intros line Hin.
  apply ORF_rows_lines in Hin as (ORF & es & HORF & Hrow).
  exists ORF. split; [exact HORF|].
  eapply ORF_row_report_row. exact Hrow.
Qed.

(** A pair that [find_LCA_for_ORF] returned without a taxon id reaches the
    aggregator: after the run on [T_unmapped] the list handed to
    [find_weighted_LCA] is made of the sentinel pair of the only ORF. *)
Lemma C1_unresolved_pair_is_passed :
  let args := Examples.args_f (3 # 10) in
  let sentinel := "no taxid found (no taxon id found among candidate hits)" in
  snd (ORF_loop (tax := SpecTax.spec_tax) Examples.str_whole args Examples.T_unmapped
                (bin_name args) (Outfiles [header1] [header2]))
  = Some [(sentinel, 50%Q)]
  /\ LCAs_ORFs_of_run (tax := SpecTax.spec_tax) Examples.str_whole args Examples.T_unmapped
     = Some [(sentinel, 50%Q)]
  /\ Py.startswith sentinel "no taxid found" = true.
Proof. repeat split; vm_compute; reflexivity. Qed.

Lemma C1_aggregator_input_witness :
  let args := Examples.args_f (3 # 10) in
  let T := Examples.T_unmapped in
  let sentinel := "no taxid found (no taxon id found among candidate hits)" in
  LCAs_ORFs_of_run (tax := SpecTax.spec_tax) Examples.str_whole args T
  = Some [(sentinel, 50%Q)]
  /\ ("c1_1" ∈ report_order T
      /\ SpecTax.find_LCA_for_ORF [("ACC9", 50%Q)] (fastaid2LCAtaxid T) (taxid2parent T)
         = Some (sentinel, 50%Q)
      /\ (sentinel, 50%Q) ∈ [(sentinel, 50%Q)]
      /\ Py.tsv ["c1_1"; bin_name args; sentinel; Examples.str_whole 50]
           ∈ outf2 (fst (run (tax := SpecTax.spec_tax) Examples.str_whole args T))).
Proof.
  intros args T sentinel.
  assert (HL : LCAs_ORFs_of_run (tax := SpecTax.spec_tax) Examples.str_whole args T
               = Some [(sentinel, 50%Q)]) by (vm_compute; reflexivity).
  assert (Hin : "c1_1" ∈ report_order T) by (vm_compute; left).
  assert (HF : SpecTax.find_LCA_for_ORF [("ACC9", 50%Q)] (fastaid2LCAtaxid T) (taxid2parent T)
               = Some (sentinel, 50%Q)) by (vm_compute; reflexivity).
  split; [exact HL|]. split; [exact Hin|]. split; [exact HF|].
  destruct (C1_aggregator_input (tax := SpecTax.spec_tax) Examples.str_whole args T _ HL)
    as [_ Hrows].
  apply (Hrows "c1_1" [("ACC9", 50%Q)] sentinel 50%Q Hin).
  - vm_compute; reflexivity.
  - exact HF.
  - vm_compute; reflexivity.
Defined.

(** The row of an ORF with no hit has three fields, not four. *)
Lemma C5_no_hit_row_has_three_fields :
  let row := Py.tsv ["c1_1"; "bin.fa"; "ORF has no hit to database"] in
  outf2 (fst (run (tax := SpecTax.spec_tax) Examples.str_whole
                  (Examples.args_f (3 # 10)) Examples.T_no_hit))
  = [header2; row]
  /\ Py.fields_of row = ["c1_1"; "bin.fa"; "ORF has no hit to database"]
  /\ length (Py.fields_of row) <> 4.
Proof. repeat split; vm_compute; (reflexivity || discriminate). Qed.

(** ** The per-bin report *)

Lemma run_outf1 {tax : Tax} str_bitscore args T :
  outf1 (fst (run str_bitscore args T))
  = header1 :: match LCAs_ORFs_of_run str_bitscore args T with
               | Some L => fst (bin_rows args T (bin_name args) L)
               | None => []
               end.
Proof.
  rewrite run_rows. destruct (LCAs_ORFs_of_run str_bitscore args T); reflexivity.
Qed.

Lemma run_exit {tax : Tax} str_bitscore args T :
  snd (run str_bitscore args T)
  = match LCAs_ORFs_of_run str_bitscore args T with
    | Some L => snd (bin_rows args T (bin_name args) L)
    | None => None
    end.
Proof.
  rewrite run_rows. destruct (LCAs_ORFs_of_run str_bitscore args T); reflexivity.
Qed.

(** ** Bins without a classified ORF *)

(** When no ORF of the bin has a hit, no [tax] function is called: the run
    ends normally, every ORF has its no-hit row, and the bin has its
    unclassified row. *)
Lemma run_no_hits {tax : Tax} str_bitscore args T :
  (forall ORF, ORF ∈ report_order T -> ORF2hits T !! ORF = None) ->
  run str_bitscore args T
  = (Outfiles [header1; Py.tsv [bin_name args; "unclassified"; "no hits to database"]]
              (header2 :: map (fun ORF => Py.tsv [ORF; bin_name args;
                                                  "ORF has no hit to database"])
                              (report_order T)),
     Some 0).
Proof.
  intros Hno.
  assert (H : forall l, (forall ORF, ORF ∈ l -> ORF2hits T !! ORF = None) ->
            ORF_rows str_bitscore args T (bin_name args) l
            = (map (fun ORF => Py.tsv [ORF; bin_name args; "ORF has no hit to database"]) l,
               Some [])).
  { induction l as [|ORF l IH]; intros Hl; [reflexivity|].
    simpl. unfold ORF_row at 1. rewrite (Hl ORF) by left.
    rewrite IH by (intros ORF' H'; apply Hl; right; exact H'). reflexivity. }
  rewrite run_rows. unfold LCAs_ORFs_of_run. rewrite (H _ Hno). reflexivity.
Qed.

Lemma startswith_unresolved reason :
  Py.startswith (SpecTax.unresolved reason) "no taxid found" = true.
Proof. reflexivity. Qed.

Lemma omap_all_None {A B} (g : A -> option B) (l : list A) :
  Forall (fun a => g a = None) l -> omap g l = [].
Proof.
  induction 1 as [|a l Ha _ IH]; [reflexivity|]. simpl. rewrite Ha. exact IH.
Qed.

Lemma find_LCA_for_ORF_unmapped hits index taxid2parent :
  Forall (fun h : hit => index !! fst h = None) hits ->
  exists reason top,
    SpecTax.find_LCA_for_ORF hits index taxid2parent
    = Some (SpecTax.unresolved reason, top).
Proof.
  intros H. unfold SpecTax.find_LCA_for_ORF. destruct hits as [|h hits]; [eauto|].
  rewrite (omap_all_None _ _ H). eauto.
Qed.

(** With the ORFClassifier and the BinClassifier of the specification: a
    bin in which some ORF has hits, and every hit is to an accession that
    the accession index does not know, is reported unclassified with the
    reason ["hits not found in taxonomy files"], and the run ends
    normally. *)
Lemma run_unmapped_bin str_bitscore args T :
  (exists ORF, ORF ∈ report_order T /\ is_Some (ORF2hits T !! ORF)) ->
  (forall ORF hits,
     ORF ∈ report_order T -> ORF2hits T !! ORF = Some hits ->
     Forall (fun h : hit => fastaid2LCAtaxid T !! fst h = None) hits) ->
  outf1 (fst (run (tax := SpecTax.spec_tax) str_bitscore args T))
  = [header1; Py.tsv [bin_name args; "unclassified"; "hits not found in taxonomy files"]]
  /\ snd (run (tax := SpecTax.spec_tax) str_bitscore args T) = Some 0.
Proof.
  intros Hsome Hun.
  assert (H : forall l, (forall ORF, ORF ∈ l -> ORF ∈ report_order T) ->
            exists L,
              snd (ORF_rows (tax := SpecTax.spec_tax) str_bitscore args T (bin_name args) l)
              = Some L
              /\ filter SpecTax.resolved L = []
              /\ ((exists ORF, ORF ∈ l /\ is_Some (ORF2hits T !! ORF)) -> L <> [])).
  { induction l as [|ORF l IH]; intros Hl.
    - exists []. split; [reflexivity|]. split; [reflexivity|].
      intros (ORF & Hin & _). inversion Hin.
    - destruct IH as (L & HL & Hres & Hne);
        [intros ORF' H'; apply Hl; right; exact H'|].
      simpl. unfold ORF_row at 1.
      destruct (ORF2hits T !! ORF) as [hits|] eqn:Hh.
      + destruct (find_LCA_for_ORF_unmapped hits (fastaid2LCAtaxid T) (taxid2parent T))
          as (reason & top & HF); [eapply Hun; [apply Hl; left | exact Hh]|].
        change (@find_LCA_for_ORF SpecTax.spec_tax) with SpecTax.find_LCA_for_ORF.
        rewrite HF, startswith_unresolved. simpl. rewrite HL.
        eexists. split; [reflexivity|]. split; [|discriminate].
        simpl. rewrite filter_cons_False; [exact Hres|].
        unfold SpecTax.resolved. simpl fst. rewrite startswith_unresolved. simpl. tauto.
      + simpl. rewrite HL. exists L. split; [reflexivity|]. split; [exact Hres|].
        intros (ORF' & Hin & Hs). apply Hne.
        apply elem_of_cons in Hin as [-> | Hin].
        * rewrite Hh in Hs. destruct Hs; discriminate.
        * eauto. }
  destruct (H (report_order T)) as (L & HL & Hres & Hne); [auto|].
  specialize (Hne Hsome).
  rewrite run_outf1, run_exit. unfold LCAs_ORFs_of_run. rewrite HL.
  unfold bin_rows. destruct L as [|e L]; [congruence|]. simpl Nat.eqb. cbv iota.
  change (@find_weighted_LCA SpecTax.spec_tax) with SpecTax.find_weighted_LCA.
  unfold SpecTax.find_weighted_LCA. rewrite Hres. split; reflexivity.
Qed.

(** C2, as amended.  When the list gathered for the bin is empty (no ORF of
    the bin has a hit) the bin is reported unclassified with the reason
    ["no hits to database"], whatever [tax.find_weighted_LCA] would answer.
    When the list is not empty and [tax.find_weighted_LCA] answers
    ['no ORFs with taxids found.'], the bin is reported unclassified with
    the reason ["hits not found in taxonomy files"].  In both cases the run
    ends normally with no bin classified. *)
Theorem C2_unclassified_reasons {tax : Tax} str_bitscore args T L :
  LCAs_ORFs_of_run str_bitscore args T = Some L ->
  (L = [] ->
   outf1 (fst (run str_bitscore args T))
   = [header1; Py.tsv [bin_name args; "unclassified"; "no hits to database"]]
   /\ snd (run str_bitscore args T) = Some 0)
  /\ (L <> [] ->
      find_weighted_LCA L (taxid2parent T) (f args) = Some NoORFsWithTaxids ->
      outf1 (fst (run str_bitscore args T))
      = [header1; Py.tsv [bin_name args; "unclassified";
                          "hits not found in taxonomy files"]]
      /\ snd (run str_bitscore args T) = Some 0).
Proof.
  intros HL. rewrite run_outf1, run_exit, HL. unfold bin_rows. split.
  - intros ->. simpl. split; reflexivity.
  - intros Hne HW. destruct L as [|e L]; [congruence|]. simpl.
    rewrite HW. split; reflexivity.
Qed.

(** C7.  Both report files exist after the [with] block, each starting
    with its header line, also when an exception escapes.  When the bin
    comes out unclassified (no ORF with a hit, no ORF with a taxon id, or no
    lineage with enough support) the run ends normally, and the outcome is
    the one data row of the per-bin report.  In particular a bin none of
    whose ORFs has a hit always ends this way. *)
Theorem C7_files_and_unclassified_bins {tax : Tax} str_bitscore args T :
  (exists rows1 rows2,
     fst (run str_bitscore args T) = Outfiles (header1 :: rows1) (header2 :: rows2))
  /\ (forall L,
        LCAs_ORFs_of_run str_bitscore args T = Some L ->
        L = []
        \/ find_weighted_LCA L (taxid2parent T) (f args) = Some NoORFsWithTaxids
        \/ find_weighted_LCA L (taxid2parent T) (f args) = Some NoLineageWhitelisted ->
        snd (run str_bitscore args T) = Some 0
        /\ exists reason,
             outf1 (fst (run str_bitscore args T))
             = [header1; Py.tsv [bin_name args; "unclassified"; reason]])
  /\ ((forall ORF, ORF ∈ report_order T -> ORF2hits T !! ORF = None) ->
      snd (run str_bitscore args T) = Some 0
      /\ outf1 (fst (run str_bitscore args T))
         = [header1; Py.tsv [bin_name args; "unclassified"; "no hits to database"]]).
Proof.
  split; [|split].
  - rewrite run_rows. destruct (LCAs_ORFs_of_run str_bitscore args T); eauto.
  - intros L HL Hcase. rewrite run_outf1, run_exit, HL. unfold bin_rows.
    destruct L as [|e L]; simpl.
    + split; [reflexivity | eauto].
    + destruct Hcase as [Hnil | [HW | HW]]; [discriminate | |];
        rewrite HW; (split; [reflexivity | eauto]).
  - intros Hno. rewrite (run_no_hits _ _ _ Hno). split; reflexivity.
Qed.

(** The claimed reason is not what the report says: with no hit at all the
    reason is ["no hits to database"], and a bin whose only ORF hits an
    accession unknown to the accession index gets another reason again,
    ["hits not found in taxonomy files"]. *)
Lemma C2_reasons_differ :
  let args := Examples.args_f (3 # 10) in
  LCAs_ORFs_of_run (tax := SpecTax.spec_tax) Examples.str_whole args Examples.T_no_hit
  = Some []
  /\ outf1 (fst (run (tax := SpecTax.spec_tax) Examples.str_whole args Examples.T_no_hit))
     = [header1; Py.tsv ["bin.fa"; "unclassified"; "no hits to database"]]
  /\ outf1 (fst (run (tax := SpecTax.spec_tax) Examples.str_whole args Examples.T_unmapped))
     = [header1; Py.tsv ["bin.fa"; "unclassified"; "hits not found in taxonomy files"]]
  /\ "no hits to database" <> "no ORFs with taxon ids found"
  /\ "hits not found in taxonomy files" <> "no ORFs with taxon ids found"
  /\ "no hits to database" <> "hits not found in taxonomy files".
Proof. repeat split; vm_compute; (reflexivity || discriminate). Qed.

Lemma C2_unclassified_reasons_witness :
  let args := Examples.args_f (3 # 10) in
  let sentinel := "no taxid found (no taxon id found among candidate hits)" in
  (outf1 (fst (run (tax := SpecTax.spec_tax) Examples.str_whole args Examples.T_no_hit))
   = [header1; Py.tsv [bin_name args; "unclassified"; "no hits to database"]]
   /\ snd (run (tax := SpecTax.spec_tax) Examples.str_whole args Examples.T_no_hit) = Some 0)
  /\ (outf1 (fst (run (tax := SpecTax.spec_tax) Examples.str_whole args Examples.T_unmapped))
      = [header1; Py.tsv [bin_name args; "unclassified"; "hits not found in taxonomy files"]]
      /\ snd (run (tax := SpecTax.spec_tax) Examples.str_whole args Examples.T_unmapped) = Some 0).
Proof.
  intros args sentinel. split.
  - apply (C2_unclassified_reasons (tax := SpecTax.spec_tax) Examples.str_whole args
             Examples.T_no_hit []); [vm_compute; reflexivity | reflexivity].
  - apply (C2_unclassified_reasons (tax := SpecTax.spec_tax) Examples.str_whole args
             Examples.T_unmapped [(sentinel, 50%Q)]);
      [vm_compute; reflexivity | discriminate | vm_compute; reflexivity].
Defined.

Lemma C7_files_and_unclassified_bins_witness :
  let args := Examples.args_f (3 # 10) in
  let run0 := run (tax := SpecTax.spec_tax) Examples.str_whole args Examples.T_unmapped in
  let run1 := run (tax := SpecTax.spec_tax) Examples.str_whole args Examples.T_no_hit in
  (snd run0 = Some 0
   /\ exists reason,
        outf1 (fst run0) = [header1; Py.tsv [bin_name args; "unclassified"; reason]])
  /\ (snd run1 = Some 0
      /\ outf1 (fst run1)
         = [header1; Py.tsv [bin_name args; "unclassified"; "no hits to database"]]).
Proof.
  intros args run0 run1. split.
  - apply (proj1 (proj2 (C7_files_and_unclassified_bins (tax := SpecTax.spec_tax)
                           Examples.str_whole args Examples.T_unmapped))
                 [("no taxid found (no taxon id found among candidate hits)", 50%Q)]).
    + vm_compute; reflexivity.
    + right; left. vm_compute; reflexivity.
  - apply (proj2 (proj2 (C7_files_and_unclassified_bins (tax := SpecTax.spec_tax)
                           Examples.str_whole args Examples.T_no_hit))).
    intros ORF HORF. vm_compute in HORF.
    apply list_elem_of_singleton in HORF as ->. vm_compute; reflexivity.
Defined.

(** ** Strings written by [str] and by the [.2f] format *)

Lemma string_of_uint_digits (d : Decimal.uint) :
  all_digits (DecimalString.NilEmpty.string_of_uint d) = true.
Proof. induction d; simpl; auto. Qed.

Lemma str_Z_digits (z : Z) :
  (0 <= z)%Z -> Py.str_Z z <> "" /\ all_digits (Py.str_Z z) = true.
Proof.
  intros Hz. unfold Py.str_Z. destruct z as [|p|p]; [| |lia].
  - split; [discriminate | reflexivity].
  - simpl. unfold DecimalString.NilZero.string_of_uint.
    destruct (Pos.to_uint p) eqn:E;
      (split; [simpl; discriminate
              | first [reflexivity | apply string_of_uint_digits]]).
Qed.

Lemma str_Z_one_digit (z : Z) :
  (0 <= z < 10)%Z ->
  exists d, Py.str_Z z = String d EmptyString /\ is_digit d = true.
Proof.
  intros Hz.
  assert (z = 0 \/ z = 1 \/ z = 2 \/ z = 3 \/ z = 4 \/ z = 5 \/ z = 6 \/ z = 7
          \/ z = 8 \/ z = 9)%Z as H by lia.
  repeat (destruct H as [-> | H]); [.. | subst z];
    (eexists; split; [vm_compute; reflexivity | reflexivity]).
Qed.

Lemma round_half_even_nonneg (q : Q) : (0 <= q)%Q -> (0 <= Py.round_half_even q)%Z.
Proof.
  intros Hq. unfold Py.round_half_even.
  assert (0 <= Qnum q)%Z as Hn.
  { unfold Qle in Hq. simpl in Hq. lia. }
  assert (0 <= Qnum q / Z.pos (Qden q))%Z as Hfl by (apply Z.div_pos; lia).
  destruct (_ <? _)%Z; [exact Hfl|].
  destruct (_ <? _)%Z; [lia|].
  destruct (Z.even _); lia.
Qed.

(** The [.2f] format always yields a number with two decimals. *)
Lemma format_2f_two_decimals (x : Q) : two_decimals (Py.format_2f x).
Proof.
  unfold Py.format_2f, Py.two_digits.
  set (c := Py.round_half_even (Qabs x * 100)).
  assert (0 <= c)%Z as Hc.
  { apply round_half_even_nonneg.
    apply Qmult_le_0_compat; [apply Qabs_nonneg | discriminate]. }
  assert (0 <= c / 100)%Z as Hi by (apply Z.div_pos; lia).
  assert (0 <= c mod 100 < 100)%Z as Hm by (apply Z.mod_pos_bound; lia).
  destruct (str_Z_digits _ Hi) as [Hne Hd].
  destruct (str_Z_one_digit (c mod 100 / 10)) as (d1 & -> & Hd1).
  { split; [apply Z.div_pos; lia | apply Z.div_lt_upper_bound; lia]. }
  destruct (str_Z_one_digit ((c mod 100) mod 10)) as (d2 & -> & Hd2).
  { apply Z.mod_pos_bound; lia. }
  exists (if Qlt_le_dec x 0 then "-" else ""), (Py.str_Z (c / 100)), d1, d2.
  split; [reflexivity|].
  split; [destruct (Qlt_le_dec x 0); auto|].
  auto.
Qed.

Lemma rows_until_lookup {A} (row : A -> option string) (l : list A) j line :
  fst (rows_until row l) !! j = Some line ->
  exists a, l !! j = Some a /\ row a = Some line.
Proof.
  revert j. induction l as [|a l IH]; intros j; simpl.
  - destruct j; discriminate.
  - destruct (row a) as [line0|] eqn:E; simpl.
    + destruct j as [|j]; simpl.
      * intros [= <-]. exists a. auto.
      * apply IH.
    + destruct j; discriminate.
Qed.

Lemma combine_seq_lookup {A} (l : list A) s j i x :
  combine (seq s (length l)) l !! j = Some (i, x) -> i = s + j /\ l !! j = Some x.
Proof.
  revert s j. induction l as [|a l IH]; intros s j; simpl.
  - destruct j; discriminate.
  - destruct j as [|j]; simpl.
    + intros [= <- <-]. split; [lia | reflexivity].
    + intros H. apply IH in H as [-> H]. split; [lia | exact H].
Qed.

Lemma enumerate_lookup {A} (l : list A) j i x :
  Py.enumerate l !! j = Some (i, x) -> i = j /\ l !! j = Some x.
Proof. apply combine_seq_lookup. Qed.

(** C6.  Every data row of the per-bin report is either an unclassified
    row, with status ["unclassified"], or the row of the lineage at its
    position among the lineages returned: its status is ["classified"] when
    one lineage was returned and ["classified (i/n)"] when [n >= 2] were,
    [i] counting from 1; its lineage and its support scores are joined with
    [;], and every score is written with two decimals. *)
Theorem C6_bin_report_rows {tax : Tax} str_bitscore args T j line :
  outf1 (fst (run str_bitscore args T)) !! S j = Some line ->
  bin_report_row str_bitscore args T j line.
Proof.
  unfold bin_report_row. rewrite run_outf1. simpl.
  destruct (LCAs_ORFs_of_run str_bitscore args T) as [L|] eqn:HL;
    [|destruct j; discriminate].
  unfold bin_rows. destruct (Nat.eqb (length L) 0).
  { destruct j as [|j]; simpl; [|destruct j; discriminate].
    intros [= <-]. left. eauto. }
  destruct (find_weighted_LCA L (taxid2parent T) (f args))
    as [[| |lineages scores n]|] eqn:HW; simpl.
  - destruct j as [|j]; simpl; [|destruct j; discriminate].
    intros [= <-]. left. eauto.
  - destruct j as [|j]; simpl; [|destruct j; discriminate].
    intros [= <-]. left. eauto.
  - intros H. right.
    apply rows_until_lookup in H as ([i lineage] & Hil & Hrow).
    apply enumerate_lookup in Hil as [-> Hlin].
    unfold lineage_row in Hrow. simpl in Hrow.
    destruct (scores !! j) as [ss|] eqn:Hss; [|discriminate].
    injection Hrow as <-.
    exists L, lineages, scores, n, lineage, ss.
    eexists. split; [reflexivity|]. split; [exact HW|].
    split; [exact Hlin|]. split; [exact Hss|]. split; [reflexivity|]. split.
    + destruct (Nat.eqb (length lineages) 1) eqn:E.
      * left. apply Nat.eqb_eq in E. auto.
      * right. apply Nat.eqb_neq in E. split; [|reflexivity].
        apply lookup_lt_Some in Hlin. lia.
    + apply Forall_forall. intros s Hs.
      apply list_elem_of_fmap in Hs as (x & -> & _). apply format_2f_two_decimals.
  - destruct j; discriminate.
Qed.

Lemma C6_bin_report_rows_witness :
  let args := Examples.args_f (3 # 10) in
  let T := Examples.T_siblings 100 50 in
  let row := Py.tsv ["bin.fa"; "classified (2/2)"; "based on 2/2 ORFs";
                     Py.join ";" ["1"; "2*"; "4"]; Py.join ";" ["1.00"; "1.00"; "0.33"]] in
  outf1 (fst (run (tax := SpecTax.spec_tax) Examples.str_whole args T)) !! 2 = Some row
  /\ bin_report_row (tax := SpecTax.spec_tax) Examples.str_whole args T 1 row.
Proof.
  intros args T row.
  assert (H : outf1 (fst (run (tax := SpecTax.spec_tax) Examples.str_whole args T)) !! 2
              = Some row) by (vm_compute; reflexivity).
  split; [exact H|].
  exact (C6_bin_report_rows (tax := SpecTax.spec_tax) Examples.str_whole args T 1 row H).
Defined.

(** ** Order of the report and independence of the iteration order *)

Lemma sorted_Permutation (l l' : list string) :
  l ≡ₚ l' -> Py.sorted l = Py.sorted l'.
Proof.
  intros Hp. unfold Py.sorted.
  apply (Sorted_unique String.le).
  - apply Sorted_merge_sort; apply _.
  - apply Sorted_merge_sort; apply _.
  - rewrite !merge_sort_Permutation. exact Hp.
Qed.

Lemma run_contig_names_order {tax : Tax} str_bitscore args T names' :
  contig_names T ≡ₚ names' ->
  run str_bitscore args (with_contig_names T names') = run str_bitscore args T.
Proof.
  intros Hp. destruct T as [names c2o o2h t2p f2l amb]. simpl in Hp.
  unfold with_contig_names.
  assert (Hs : Py.sorted names' = Py.sorted names)
    by (apply sorted_Permutation; symmetry; exact Hp).
  assert (Ht : forall g : string -> nat, list_sum (map g names') = list_sum (map g names)).
  { intros g. apply Permutation_list_sum, Permutation_map. symmetry. exact Hp. }
  unfold run, run_M, bin_body, ORF_loop, lineage_body, total_n_ORFs,
    contig_body, ORF_body, stars.
  cbn [contig_names contig2ORFs ORF2hits taxid2parent fastaid2LCAtaxid
       taxids_with_multiple_offspring].
  rewrite Hs, Ht. reflexivity.
Qed.

Lemma ORF_rows_prefix {tax : Tax} str_bitscore args T bin_ l :
  exists k,
    k <= length l
    /\ Forall2 (fun ORF line =>
                  exists es, ORF_row str_bitscore args T bin_ ORF = Some (line, es))
               (take k l) (fst (ORF_rows str_bitscore args T bin_ l))
    /\ (is_Some (snd (ORF_rows str_bitscore args T bin_ l)) -> k = length l).
Proof.
  induction l as [|ORF l (k & Hk & Hrows & Hall)]; simpl.
  - exists 0. split; [lia|]. split; [constructor | reflexivity].
  - destruct (ORF_row str_bitscore args T bin_ ORF) as [[line es]|] eqn:E; simpl.
    + exists (S k). split; [lia|]. split.
      * simpl. constructor; [eauto | exact Hrows].
      * intros Hsome. f_equal. apply Hall.
        destruct (snd (ORF_rows str_bitscore args T bin_ l)); [eauto|].
        destruct Hsome as [? ?]; discriminate.
    + exists 0. split; [lia|]. split; [constructor|].
      intros [? ?]; discriminate.
Qed.

(** C10.  The reports do not depend on the order in which [contig_names]
    is iterated: runs on the same tables write the same two files.  The
    contigs are visited in sorted order, and the rows of the per-ORF report
    follow [report_order]: contig by contig in that order, the ORFs of each
    contig as [contig2ORFs] lists them (all of them when the loop is not
    interrupted by an exception). *)
Theorem C10_deterministic_report_order {tax : Tax} str_bitscore args T :
  (forall names',
     contig_names T ≡ₚ names' ->
     run str_bitscore args (with_contig_names T names') = run str_bitscore args T)
  /\ Sorted String.le (Py.sorted (contig_names T))
  /\ Py.sorted (contig_names T) ≡ₚ contig_names T
  /\ exists k rows,
       outf2 (fst (run str_bitscore args T)) = header2 :: rows
       /\ Forall2 (ORF_report_row str_bitscore args T) (take k (report_order T)) rows
       /\ (is_Some (LCAs_ORFs_of_run str_bitscore args T) ->
           k = length (report_order T)).
Proof.
  split; [intros names'; apply run_contig_names_order|].
  split; [apply Sorted_merge_sort; apply _|].
  split; [apply merge_sort_Permutation|].
  destruct (ORF_rows_prefix str_bitscore args T (bin_name args) (report_order T))
    as (k & _ & Hrows & Hall).
  exists k. eexists. split; [apply run_outf2|]. split; [|exact Hall].
  eapply Forall2_impl; [exact Hrows|].
  intros ORF line [es Hrow]. eapply ORF_row_report_row. exact Hrow.
Qed.

Lemma C10_deterministic_report_order_witness :
  let args := Examples.args_f (3 # 10) in
  let T := Examples.T_siblings 100 50 in
  contig_names T = ["c2"; "c1"]
  /\ run (tax := SpecTax.spec_tax) Examples.str_whole args (with_contig_names T ["c1"; "c2"])
     = run (tax := SpecTax.spec_tax) Examples.str_whole args T
  /\ report_order T = ["c1_1"; "c2_1"].
Proof.
  intros args T. split; [reflexivity|]. split; [|vm_compute; reflexivity].
  apply (proj1 (C10_deterministic_report_order (tax := SpecTax.spec_tax)
                  Examples.str_whole args T)).
  vm_compute. apply perm_swap.
Defined.

(** ** Starring is a frame around everything but the lineage fields *)

Section StarFrame.

Context {tax : Tax}.
Variable str_bitscore : Q -> string.
Variable args : arguments.
Variable T : tables.
Variables star1 star2 : list string -> gset string -> list string.
Variables b1 b2 : bool.

Let tax1 : Tax := with_star tax star1.
Let tax2 : Tax := with_star tax star2.
Let args1 : arguments := with_no_stars args b1.
Let args2 : arguments := with_no_stars args b2.

(** An ORF raises in one run exactly when it does in the other, and it
    contributes the same pairs. *)
Lemma ORF_row_frame bin_ ORF :
  option_map snd (ORF_row (tax := tax1) str_bitscore args1 T bin_ ORF)
  = option_map snd (ORF_row (tax := tax2) str_bitscore args2 T bin_ ORF).
Proof.
  unfold ORF_row. cbn [tax1 tax2 with_star find_LCA_for_ORF find_lineage].
  destruct (ORF2hits T !! ORF) as [hits|]; [|reflexivity].
  destruct (find_LCA_for_ORF hits _ _) as [[taxid top]|]; [|reflexivity].
  destruct (Py.startswith taxid _); [reflexivity|].
  destruct (find_lineage taxid _); reflexivity.
Qed.

Lemma ORF_rows_frame bin_ l :
  length (fst (ORF_rows (tax := tax1) str_bitscore args1 T bin_ l))
  = length (fst (ORF_rows (tax := tax2) str_bitscore args2 T bin_ l))
  /\ snd (ORF_rows (tax := tax1) str_bitscore args1 T bin_ l)
     = snd (ORF_rows (tax := tax2) str_bitscore args2 T bin_ l).
Proof.
  induction l as [|ORF l [IH1 IH2]]; simpl; [auto|].
  pose proof (ORF_row_frame bin_ ORF) as H.
  destruct (ORF_row (tax := tax1) str_bitscore args1 T bin_ ORF) as [[line1 es1]|];
    destruct (ORF_row (tax := tax2) str_bitscore args2 T bin_ ORF) as [[line2 es2]|];
    simpl in H; try discriminate; simpl; [|auto].
  injection H as ->. rewrite IH1, IH2. auto.
Qed.

Lemma lineage_row_frame bin_ lineages scores n il :
  lineage_row (tax := tax1) args1 T bin_ lineages scores n il = None
  <-> lineage_row (tax := tax2) args2 T bin_ lineages scores n il = None.
Proof.
  unfold lineage_row. destruct (scores !! fst il); [|tauto].
  split; discriminate.
Qed.

Lemma rows_until_frame {A} (row1 row2 : A -> option string) (l : list A) :
  (forall a, row1 a = None <-> row2 a = None) ->
  length (fst (rows_until row1 l)) = length (fst (rows_until row2 l))
  /\ snd (rows_until row1 l) = snd (rows_until row2 l).
Proof.
  intros Hrow. induction l as [|a l [IH1 IH2]]; simpl; [auto|].
  specialize (Hrow a). destruct (row1 a), (row2 a); simpl.
  - rewrite IH1. auto.
  - destruct Hrow as [_ H]. discriminate (H eq_refl).
  - destruct Hrow as [H _]. discriminate (H eq_refl).
  - auto.
Qed.

Lemma bin_rows_frame bin_ L :
  length (fst (bin_rows (tax := tax1) args1 T bin_ L))
  = length (fst (bin_rows (tax := tax2) args2 T bin_ L))
  /\ snd (bin_rows (tax := tax1) args1 T bin_ L)
     = snd (bin_rows (tax := tax2) args2 T bin_ L).
Proof.
  unfold bin_rows. cbn [tax1 tax2 with_star find_weighted_LCA args1 args2 with_no_stars f].
  destruct (Nat.eqb (length L) 0); [auto|].
  destruct (find_weighted_LCA L (taxid2parent T) (f args)) as [[| |ls sc n]|];
    simpl; auto.
  destruct (rows_until_frame
              (lineage_row (tax := tax1) args1 T bin_ ls sc n)
              (lineage_row (tax := tax2) args2 T bin_ ls sc n)
              (Py.enumerate ls)) as [H1 H2].
  { intros il. apply lineage_row_frame. }
  rewrite H1, H2. auto.
Qed.

Lemma run_frame :
  LCAs_ORFs_of_run (tax := tax1) str_bitscore args1 T
  = LCAs_ORFs_of_run (tax := tax2) str_bitscore args2 T
  /\ snd (run (tax := tax1) str_bitscore args1 T)
     = snd (run (tax := tax2) str_bitscore args2 T)
  /\ length (outf2 (fst (run (tax := tax1) str_bitscore args1 T)))
     = length (outf2 (fst (run (tax := tax2) str_bitscore args2 T)))
  /\ length (outf1 (fst (run (tax := tax1) str_bitscore args1 T)))
     = length (outf1 (fst (run (tax := tax2) str_bitscore args2 T))).
Proof.
  assert (HL : LCAs_ORFs_of_run (tax := tax1) str_bitscore args1 T
               = LCAs_ORFs_of_run (tax := tax2) str_bitscore args2 T).
  { unfold LCAs_ORFs_of_run. apply ORF_rows_frame. }
  split; [exact HL|].
  rewrite !run_exit, !run_outf1, !run_outf2, HL.
  change (bin_name args1) with (bin_name args2).
  destruct (ORF_rows_frame (bin_name args2) (report_order T)) as [Hlen _].
  simpl. rewrite Hlen.
  destruct (LCAs_ORFs_of_run (tax := tax2) str_bitscore args2 T) as [L|]; [|auto].
  destruct (bin_rows_frame (bin_name args2) L) as [H1 H2].
  rewrite H1, H2. auto.
Qed.

End StarFrame.

Lemma with_star_same (tax : Tax) : with_star tax (@star_lineage tax) = tax.
Proof. destruct tax; reflexivity. Qed.

Lemma with_no_stars_same (args : arguments) : with_no_stars args (no_stars args) = args.
Proof. destruct args; reflexivity. Qed.

(** With [--no_stars] the function [star_lineage] plays no part. *)
Lemma run_no_stars_any_star {tax : Tax} str_bitscore args T star :
  run (tax := with_star tax star) str_bitscore (with_no_stars args true) T
  = run str_bitscore (with_no_stars args true) T.
Proof.
  unfold run, run_M, bin_body, ORF_loop, lineage_body, contig_body, ORF_body, stars.
  cbn [with_star with_no_stars no_stars f bin_fasta
       find_LCA_for_ORF find_lineage find_weighted_LCA].
  reflexivity.
Qed.

(** The pairs gathered do not depend on [--no_stars]. *)
Lemma LCAs_ORFs_any_no_stars {tax : Tax} str_bitscore args T b :
  LCAs_ORFs_of_run str_bitscore (with_no_stars args b) T
  = LCAs_ORFs_of_run str_bitscore args T.
Proof.
  pose proof (run_frame (tax := tax) str_bitscore args T
                        (@star_lineage tax) (@star_lineage tax) b (no_stars args))
    as [H _].
  rewrite with_star_same, with_no_stars_same in H. exact H.
Qed.

Section StarRows.

Context {tax : Tax}.
Variable str_bitscore : Q -> string.
Variable args : arguments.
Variable T : tables.

Lemma ORF_rows_lookup args' bin_ l j line :
  fst (ORF_rows str_bitscore args' T bin_ l) !! j = Some line ->
  exists ORF es,
    l !! j = Some ORF /\ ORF_row str_bitscore args' T bin_ ORF = Some (line, es).
Proof.
  revert j. induction l as [|ORF l IH]; intros j; simpl.
  - destruct j; discriminate.
  - destruct (ORF_row str_bitscore args' T bin_ ORF) as [[line0 es0]|] eqn:E; simpl.
    + destruct j as [|j]; simpl.
      * intros [= <-]. exists ORF, es0. auto.
      * apply IH.
    + destruct j; discriminate.
Qed.

(** The two rows of one ORF. *)
Lemma ORF_row_stars ORF line1 es1 line2 es2 :
  ORF_row str_bitscore (with_no_stars args false) T (bin_name args) ORF
  = Some (line1, es1) ->
  ORF_row str_bitscore (with_no_stars args true) T (bin_name args) ORF
  = Some (line2, es2) ->
  ORF_rows_differ_in_stars str_bitscore args T ORF line1 line2.
Proof.
  unfold ORF_row, ORF_rows_differ_in_stars, stars. cbn [with_no_stars no_stars].
  destruct (ORF2hits T !! ORF) as [hits|].
  - destruct (find_LCA_for_ORF hits _ _) as [[taxid top]|] eqn:HLCA; [|discriminate].
    destruct (Py.startswith taxid _) eqn:Hs.
    + intros [= <- _] [= <- _]. right. exists hits, taxid, top.
      split; [reflexivity|]. split; [exact HLCA|]. left. auto.
    + destruct (find_lineage taxid _) as [lineage|] eqn:Hl; [|discriminate].
      intros [= <- _] [= <- _]. right. exists hits, taxid, top.
      split; [reflexivity|]. split; [exact HLCA|]. right.
      split; [exact Hs|]. exists lineage. auto.
  - intros [= <- _] [= <- _]. left. auto.
Qed.

(** The two [j]-th rows of the bin. *)
Lemma bin_rows_stars L j line1 line2 :
  LCAs_ORFs_of_run str_bitscore args T = Some L ->
  fst (bin_rows (with_no_stars args false) T (bin_name args) L) !! j = Some line1 ->
  fst (bin_rows (with_no_stars args true) T (bin_name args) L) !! j = Some line2 ->
  bin_rows_differ_in_stars str_bitscore args T j line1 line2.
Proof.
  intros HL. unfold bin_rows, bin_rows_differ_in_stars. cbn [with_no_stars f].
  destruct (Nat.eqb (length L) 0).
  { destruct j as [|j]; simpl; [|destruct j; discriminate].
    intros [= <-] [= <-]. left. eexists. eauto 6. }
  destruct (find_weighted_LCA L (taxid2parent T) (f args))
    as [[| |lineages scores n]|] eqn:HW; simpl.
  - destruct j as [|j]; simpl; [|destruct j; discriminate].
    intros [= <-] [= <-]. left. eexists. eauto 6.
  - destruct j as [|j]; simpl; [|destruct j; discriminate].
    intros [= <-] [= <-]. left. eexists. eauto 7.
  - intros H1 H2. right.
    apply rows_until_lookup in H1 as ([i lineage] & Hil & Hrow1).
    apply rows_until_lookup in H2 as ([i' lineage'] & Hil' & Hrow2).
    rewrite Hil in Hil'. injection Hil' as <- <-.
    apply enumerate_lookup in Hil as [-> Hlin].
    unfold lineage_row, stars in Hrow1, Hrow2. cbn [with_no_stars no_stars] in Hrow1, Hrow2.
    simpl in Hrow1, Hrow2.
    destruct (scores !! j) as [ss|] eqn:Hss; [|discriminate].
    injection Hrow1 as <-. injection Hrow2 as <-.
    exists L, lineages, scores, n, lineage, ss.
    split; [exact HL|]. split; [first [exact HW | reflexivity]|]. split; [exact Hlin|].
    split; [first [exact Hss | reflexivity]|]. simpl. auto.
  - destruct j; discriminate.
Qed.

End StarRows.

(** C9.  Starring is informational.  The pairs gathered for the
    aggregation are the same whatever [star_lineage] does and whatever
    [--no_stars] says, and so are the end of the run and the number of
    classified bins.  The reports written with and without [--no_stars] have
    the same number of rows after the same header.  The two rows at a
    position of the per-ORF report are the record of the same ORF, with the
    same bin id, the same top bit-score and the lineage of the same taxon
    id; the two rows at a position of the per-bin report have the same bin
    id, status, reason and support scores and the same lineage.  The only
    difference is that the lineage is written after [star_lineage] in the
    one and as it is in the other.  With [--no_stars] the lineage is written
    as it is and [star_lineage] has no influence on the reports. *)
Theorem C9_stars_are_a_frame {tax : Tax} str_bitscore args T :
  let starred := run str_bitscore (with_no_stars args false) T in
  let plain := run str_bitscore (with_no_stars args true) T in
  (forall star b,
     LCAs_ORFs_of_run (tax := with_star tax star) str_bitscore (with_no_stars args b) T
     = LCAs_ORFs_of_run str_bitscore args T)
  /\ snd starred = snd plain
  /\ (exists rows1 rows2,
        outf2 (fst starred) = header2 :: rows1
        /\ outf2 (fst plain) = header2 :: rows2
        /\ length rows1 = length rows2
        /\ forall j line1 line2,
             rows1 !! j = Some line1 ->
             rows2 !! j = Some line2 ->
             exists ORF,
               report_order T !! j = Some ORF
               /\ ORF_rows_differ_in_stars str_bitscore args T ORF line1 line2)
  /\ (exists rows1 rows2,
        outf1 (fst starred) = header1 :: rows1
        /\ outf1 (fst plain) = header1 :: rows2
        /\ length rows1 = length rows2
        /\ forall j line1 line2,
             rows1 !! j = Some line1 ->
             rows2 !! j = Some line2 ->
             bin_rows_differ_in_stars str_bitscore args T j line1 line2)
  /\ (forall star,
        run (tax := with_star tax star) str_bitscore (with_no_stars args true) T = plain)
  /\ (forall lineage, stars (with_no_stars args true) T lineage = lineage).
Proof.
  intros starred plain. subst starred plain.
  pose proof (run_frame (tax := tax) str_bitscore args T
                        (@star_lineage tax) (@star_lineage tax) false true)
    as (_ & Hexit & Hlen2 & Hlen1).
  rewrite with_star_same in Hexit, Hlen2, Hlen1.
  split.
  { intros star b.
    pose proof (run_frame (tax := tax) str_bitscore args T star (@star_lineage tax)
                          b (no_stars args)) as [H _].
    rewrite with_star_same, with_no_stars_same in H. exact H. }
  split; [exact Hexit|]. split; [|split].
  - rewrite !run_outf2 in *. simpl in Hlen2. injection Hlen2 as Hlen2.
    eexists _, _. split; [reflexivity|]. split; [reflexivity|].
    split; [exact Hlen2|]. intros j line1 line2 H1 H2.
    change (bin_name (with_no_stars args false)) with (bin_name args) in H1.
    change (bin_name (with_no_stars args true)) with (bin_name args) in H2.
    apply ORF_rows_lookup in H1 as (ORF & es1 & HORF & Hrow1).
    apply ORF_rows_lookup in H2 as (ORF' & es2 & HORF' & Hrow2).
    rewrite HORF in HORF'. injection HORF' as <-.
    exists ORF. split; [exact HORF|].
    eapply ORF_row_stars; eassumption.
  - rewrite !run_outf1 in *. simpl in Hlen1. injection Hlen1 as Hlen1.
    eexists _, _. split; [reflexivity|]. split; [reflexivity|].
    split; [exact Hlen1|]. intros j line1 line2.
    rewrite !LCAs_ORFs_any_no_stars.
    change (bin_name (with_no_stars args false)) with (bin_name args).
    change (bin_name (with_no_stars args true)) with (bin_name args).
    destruct (LCAs_ORFs_of_run str_bitscore args T) as [L|] eqn:HL;
      [|destruct j; discriminate].
    apply bin_rows_stars. exact HL.
  - split; [intros star; apply run_no_stars_any_star | reflexivity].
Qed.

Lemma C9_stars_are_a_frame_witness :
  ORF_rows_differ_in_stars (tax := SpecTax.spec_tax) Examples.str_whole
    (Examples.args_f (3 # 10)) (Examples.T_siblings 100 50) "c1_1"
    (Py.tsv ["c1_1"; "bin.fa"; "1;2*;3"; "100"])
    (Py.tsv ["c1_1"; "bin.fa"; "1;2;3"; "100"])
  /\ bin_rows_differ_in_stars (tax := SpecTax.spec_tax) Examples.str_whole
       (Examples.args_f (3 # 10)) (Examples.T_siblings 100 50) 1
       (Py.tsv ["bin.fa"; "classified (2/2)"; "based on 2/2 ORFs"; "1;2*;4";
                "1.00;1.00;0.33"])
       (Py.tsv ["bin.fa"; "classified (2/2)"; "based on 2/2 ORFs"; "1;2;4";
                "1.00;1.00;0.33"]).
Proof.
  destruct (C9_stars_are_a_frame (tax := SpecTax.spec_tax) Examples.str_whole
              (Examples.args_f (3 # 10)) (Examples.T_siblings 100 50))
    as (_ & _ & (o1 & o2 & Ho1 & Ho2 & _ & HORF) & (b1 & b2 & Hb1 & Hb2 & _ & Hbin) & _).
  vm_compute in Ho1, Ho2, Hb1, Hb2.
  injection Ho1 as <-. injection Ho2 as <-. injection Hb1 as <-. injection Hb2 as <-.
  split.
  - destruct (HORF 0 _ _ eq_refl eq_refl) as (ORF & Hlook & Hrow).
    vm_compute in Hlook. injection Hlook as <-. exact Hrow.
  - exact (Hbin 1 _ _ eq_refl eq_refl).
Defined.

(** ** The lineage walk *)

Section Walk.

Variable taxid2parent : gmap string string.

Lemma walk_more_fuel n taxid l :
  SpecTax.walk n taxid2parent taxid = Some l ->
  SpecTax.walk (S n) taxid2parent taxid = Some l.
Proof.
  revert taxid l. induction n as [|n IH]; intros taxid l; [discriminate|].
  intros H. simpl in H. change (SpecTax.walk (S (S n)) taxid2parent taxid)
    with (match taxid2parent !! taxid with
          | None => None
          | Some parent =>
              if String.eqb parent taxid then Some [taxid]
              else match SpecTax.walk (S n) taxid2parent parent with
                   | Some rest => Some (taxid :: rest)
                   | None => None
                   end
          end).
  destruct (taxid2parent !! taxid) as [parent|]; [|discriminate].
  destruct (String.eqb parent taxid); [exact H|].
  destruct (SpecTax.walk n taxid2parent parent) as [rest|] eqn:E; [|discriminate].
  rewrite (IH _ _ E). exact H.
Qed.

(** A lineage starts at its taxon. *)
Lemma walk_head n taxid l :
  SpecTax.walk n taxid2parent taxid = Some l -> exists rest, l = taxid :: rest.
Proof.
  destruct n as [|n]; [discriminate|]. simpl.
  destruct (taxid2parent !! taxid) as [parent|]; [|discriminate].
  destruct (String.eqb parent taxid); [intros [= <-]; eauto|].
  destruct (SpecTax.walk n taxid2parent parent); [|discriminate].
  intros [= <-]. eauto.
Qed.

(** The lineage of a node met on a walk is the rest of the walk. *)
Lemma walk_suffix n taxid l l1 a l2 :
  SpecTax.walk n taxid2parent taxid = Some l ->
  l = (l1 ++ a :: l2)%list ->
  SpecTax.walk n taxid2parent a = Some (a :: l2).
Proof.
  revert taxid l l1. induction n as [|n IH]; intros taxid l l1; [discriminate|].
  intros H Hl. pose proof H as H0. simpl in H.
  destruct (taxid2parent !! taxid) as [parent|]; [|discriminate].
  destruct (String.eqb parent taxid).
  - injection H as <-. destruct l1 as [|x l1]; simpl in Hl.
    + injection Hl as <- <-. exact H0.
    + injection Hl as _ Hl. destruct l1; discriminate.
  - destruct (SpecTax.walk n taxid2parent parent) as [rest|] eqn:E; [|discriminate].
    injection H as <-. destruct l1 as [|x l1]; simpl in Hl.
    + injection Hl as <- <-. exact H0.
    + injection Hl as _ Hl. apply walk_more_fuel. eapply IH; [exact E | exact Hl].
Qed.

End Walk.

(** ** Sums of weights *)

Lemma mem_elem_of (x : string) (l : list string) :
  SpecTax.mem x l = true <-> x ∈ l.
Proof.
  unfold SpecTax.mem. rewrite existsb_exists. split.
  - intros (y & Hy & Heq). apply String.eqb_eq in Heq as ->.
    apply list_elem_of_In. exact Hy.
  - intros H. exists x. split; [apply list_elem_of_In; exact H | apply String.eqb_refl].
Qed.

Lemma Qsum_map_add {A} (g h : A -> Q) (l : list A) :
  (SpecTax.Qsum (map (fun x => g x + h x) l)
   == SpecTax.Qsum (map g l) + SpecTax.Qsum (map h l))%Q.
Proof.
  induction l as [|x l IH]; simpl.
  - reflexivity.
  - rewrite IH. ring.
Qed.

Lemma Qsum_map_ext {A} (g h : A -> Q) (l : list A) :
  (forall x, x ∈ l -> g x == h x)%Q ->
  (SpecTax.Qsum (map g l) == SpecTax.Qsum (map h l))%Q.
Proof.
  induction l as [|x l IH]; intros H; simpl.
  - reflexivity.
  - rewrite IH, (H x); [reflexivity | left |].
    intros y Hy. apply H. right. exact Hy.
Qed.

Lemma Qsum_map_le {A} (g h : A -> Q) (l : list A) :
  (forall x, x ∈ l -> g x <= h x)%Q ->
  (SpecTax.Qsum (map g l) <= SpecTax.Qsum (map h l))%Q.
Proof.
  induction l as [|x l IH]; intros H; simpl.
  - apply Qle_refl.
  - apply Qplus_le_compat; [apply H; left | apply IH].
    intros y Hy. apply H. right. exact Hy.
Qed.

Lemma Qsum_map_const {A} (c : Q) (l : list A) :
  (SpecTax.Qsum (map (fun _ => c) l) == inject_Z (Z.of_nat (length l)) * c)%Q.
Proof.
  induction l as [|x l IH].
  - simpl. ring.
  - cbn [map SpecTax.Qsum fold_right length]. fold (SpecTax.Qsum (map (fun _ : A => c) l)).
    rewrite IH, Nat2Z.inj_succ. unfold Z.succ. rewrite inject_Z_plus. ring.
Qed.

Lemma total_weight_nonneg (entries : list SpecTax.entry) :
  Forall (fun e => 0 <= snd e)%Q entries -> (0 <= SpecTax.total_weight entries)%Q.
Proof.
  unfold SpecTax.total_weight. induction 1 as [|e es He _ IH]; simpl.
  - apply Qle_refl.
  - replace 0%Q with (0 + 0)%Q by reflexivity. apply Qplus_le_compat; assumption.
Qed.

Lemma weight_through_cons (e : SpecTax.entry) es node :
  (SpecTax.weight_through (e :: es) node
   == (if SpecTax.through node e then snd e else 0) + SpecTax.weight_through es node)%Q.
Proof.
  unfold SpecTax.weight_through. rewrite filter_cons.
  destruct (decide (SpecTax.through node e)) as [H|H].
  - apply Is_true_true in H. rewrite H. simpl. reflexivity.
  - apply Is_true_false in H. rewrite H. simpl. ring.
Qed.

(** Among nodes of which an entry meets at most one, the entry's weight is
    counted at most once. *)
Lemma Qsum_at_most_once (P : string -> bool) (w : Q) (nodes : list string) :
  (0 <= w)%Q ->
  NoDup nodes ->
  (forall n1 n2, n1 ∈ nodes -> n2 ∈ nodes -> P n1 = true -> P n2 = true -> n1 = n2) ->
  (SpecTax.Qsum (map (fun n => if P n then w else 0) nodes) <= w)%Q.
Proof.
  intros Hw Hnd. induction Hnd as [|n nodes Hn Hnd IH]; intros Hone; simpl.
  - exact Hw.
  - destruct (P n) eqn:HP.
    + assert (SpecTax.Qsum (map (fun n => if P n then w else 0) nodes) == 0)%Q as ->.
      { rewrite (Qsum_map_ext _ (fun _ => 0%Q)); [rewrite Qsum_map_const; ring|].
        intros x Hx. destruct (P x) eqn:HPx; [|reflexivity].
        exfalso. apply Hn. rewrite <- (Hone x n); auto; [right; exact Hx | left]. }
      rewrite Qplus_0_r. apply Qle_refl.
    + rewrite Qplus_0_l. apply IH.
      intros n1 n2 H1 H2. apply Hone; right; assumption.
Qed.

Lemma weights_through_le_total (entries : list SpecTax.entry) (nodes : list string) :
  Forall (fun e => 0 <= snd e)%Q entries ->
  NoDup nodes ->
  (forall e n1 n2,
     e ∈ entries -> n1 ∈ nodes -> n2 ∈ nodes ->
     SpecTax.through n1 e = true -> SpecTax.through n2 e = true -> n1 = n2) ->
  (SpecTax.Qsum (map (SpecTax.weight_through entries) nodes)
   <= SpecTax.total_weight entries)%Q.
Proof.
  intros Hw Hnd. induction Hw as [|e es He Hes IH]; intros Hone.
  - unfold SpecTax.total_weight. simpl.
    rewrite (Qsum_map_ext _ (fun _ => 0%Q)); [|reflexivity].
    rewrite Qsum_map_const. ring_simplify. apply Qle_refl.
  - rewrite (Qsum_map_ext _ (fun n => (if SpecTax.through n e then snd e else 0)
                                      + SpecTax.weight_through es n)%Q);
      [|intros; apply weight_through_cons].
    rewrite Qsum_map_add. unfold SpecTax.total_weight. simpl.
    apply Qplus_le_compat.
    + apply Qsum_at_most_once; [exact He | exact Hnd|].
      intros n1 n2 H1 H2. apply Hone; [left | exact H1 | exact H2].
    + apply IH. intros e' n1 n2 He'. apply Hone. right. exact He'.
Qed.

(** Nodes that each reach the support [f], no two of them on the lineage
    of one entry: there are at most [1/f] of them. *)
Lemma supported_nodes_bound (entries : list SpecTax.entry) (nodes : list string) (f : Q) :
  Forall (fun e => 0 <= snd e)%Q entries ->
  NoDup nodes ->
  (forall e n1 n2,
     e ∈ entries -> n1 ∈ nodes -> n2 ∈ nodes ->
     SpecTax.through n1 e = true -> SpecTax.through n2 e = true -> n1 = n2) ->
  (0 < f)%Q ->
  (forall n, n ∈ nodes -> Qle_bool f (SpecTax.support entries n) = true) ->
  (inject_Z (Z.of_nat (length nodes)) * f <= 1)%Q.
Proof.
  intros Hw Hnd Hone Hf Hsup.
  pose proof (total_weight_nonneg _ Hw) as HT.
  pose proof (weights_through_le_total _ _ Hw Hnd Hone) as Hsum.
  set (Tw := SpecTax.total_weight entries) in *.
  destruct (Qlt_le_dec 0 Tw) as [Hpos | Hzero].
  - assert (forall n, n ∈ nodes -> f * Tw <= SpecTax.weight_through entries n)%Q as Hn.
    { intros n Hin. apply Hsup in Hin. apply Qle_bool_iff in Hin.
      unfold SpecTax.support in Hin. fold Tw in Hin.
      apply (Qmult_le_compat_r _ _ Tw) in Hin; [|apply Qlt_le_weak; exact Hpos].
      unfold Qdiv in Hin. rewrite <- Qmult_assoc, (Qmult_comm (/ Tw)), Qmult_inv_r in Hin.
      - rewrite Qmult_1_r in Hin. exact Hin.
      - intros E. rewrite E in Hpos. discriminate. }
    assert (inject_Z (Z.of_nat (length nodes)) * (f * Tw) <= Tw)%Q as Hall.
    { rewrite <- Qsum_map_const. eapply Qle_trans; [|exact Hsum].
      apply Qsum_map_le. exact Hn. }
    apply (Qmult_le_r _ _ Tw Hpos). rewrite Qmult_1_l, <- Qmult_assoc. exact Hall.
  - assert (Tw == 0)%Q as E by (apply Qle_antisym; assumption).
    destruct nodes as [|n0 nodes'].
    + simpl. rewrite Qmult_0_l. discriminate.
    + exfalso. assert (Qle_bool f (SpecTax.support entries n0) = true) as H0
        by (apply Hsup; left).
      apply Qle_bool_iff in H0. unfold SpecTax.support in H0. fold Tw in H0.
      unfold Qdiv in H0. rewrite E in H0. change (/ 0)%Q with 0%Q in H0.
      rewrite Qmult_0_r in H0. exact (Qlt_not_le _ _ Hf H0).
Qed.

(** ** The lineages selected by the BinClassifier *)

Section Selection.

Variable taxid2parent : gmap string string.

Lemma all_lineages_Forall2 taxids ls :
  SpecTax.all_lineages taxids taxid2parent = Some ls ->
  Forall2 (fun t l => SpecTax.find_lineage t taxid2parent = Some l) taxids ls.
Proof.
  revert ls. induction taxids as [|t ts IH]; intros ls; simpl.
  - intros [= <-]. constructor.
  - destruct (SpecTax.find_lineage t taxid2parent) as [l|] eqn:E; [|discriminate].
    destruct (SpecTax.all_lineages ts taxid2parent) as [ls'|]; [|discriminate].
    intros [= <-]. constructor; [exact E | apply IH; reflexivity].
Qed.

Lemma expand_Forall2 rs es :
  SpecTax.expand rs taxid2parent = Some es ->
  Forall2 (fun (r : string * Q) (e : SpecTax.entry) =>
             SpecTax.find_lineage (fst r) taxid2parent = Some (fst e) /\ snd e = snd r)
          rs es.
Proof.
  revert es. induction rs as [|[t w] rs IH]; intros es; simpl.
  - intros [= <-]. constructor.
  - destruct (SpecTax.find_lineage t taxid2parent) as [l|] eqn:E; [|discriminate].
    destruct (SpecTax.expand rs taxid2parent) as [es'|]; [|discriminate].
    intros [= <-]. constructor; [split; [exact E | reflexivity] | apply IH; reflexivity].
Qed.

Lemma find_lineage_head taxid l :
  SpecTax.find_lineage taxid taxid2parent = Some l -> hd "" l = taxid.
Proof. intros H. apply walk_head in H as [rest ->]. reflexivity. Qed.

Lemma lineages_heads taxids ls :
  Forall2 (fun t l => SpecTax.find_lineage t taxid2parent = Some l) taxids ls ->
  map (hd "") ls = taxids.
Proof.
  induction 1 as [|t l ts ls H _ IH]; simpl; [reflexivity|].
  rewrite IH, (find_lineage_head _ _ H). reflexivity.
Qed.

Lemma distinct_elem_of x l : x ∈ SpecTax.distinct l -> x ∈ l.
Proof.
  induction l as [|y l IH]; simpl; [auto|].
  intros H. apply elem_of_cons in H as [-> | H]; [left|].
  apply list_elem_of_filter in H as [_ H]. right. auto.
Qed.

Lemma distinct_NoDup l : NoDup (SpecTax.distinct l).
Proof.
  induction l as [|x l IH]; simpl; constructor.
  - intros H. apply list_elem_of_filter in H as [H _].
    rewrite String.eqb_refl in H. exact H.
  - apply NoDup_filter. exact IH.
Qed.

Variable entries : list SpecTax.entry.
Variable f : Q.
Variable candidates : list (list string).

Hypothesis candidates_are_lineages :
  Forall (fun c => exists n, SpecTax.find_lineage n taxid2parent = Some c) candidates.

Lemma selected_inv s :
  s ∈ SpecTax.selected_lineages entries f candidates ->
  s ∈ candidates
  /\ SpecTax.qualifies entries f s = true
  /\ SpecTax.maximal entries f candidates s = true
  /\ exists n ancestors, s = n :: ancestors
                         /\ SpecTax.find_lineage n taxid2parent = Some s.
Proof.
  unfold SpecTax.selected_lineages. intros H.
  apply list_elem_of_filter in H as [Hq Hin].
  apply Is_true_true, andb_true_iff in Hq as [Hq Hm].
  split; [exact Hin|]. split; [exact Hq|]. split; [exact Hm|].
  rewrite Forall_forall in candidates_are_lineages.
  destruct (candidates_are_lineages s Hin) as [n Hn].
  destruct (walk_head _ _ _ _ Hn) as [rest ->]. eauto.
Qed.

(** A selected node is not an ancestor of another qualifying candidate. *)
Lemma selected_not_below n1 a1 n2 a2 :
  (n1 :: a1) ∈ candidates ->
  SpecTax.qualifies entries f (n1 :: a1) = true ->
  SpecTax.maximal entries f candidates (n2 :: a2) = true ->
  n2 ∈ a1 -> n1 = n2.
Proof.
  intros Hin Hq Hm Hn2. destruct (String.eqb n1 n2) eqn:E;
    [apply String.eqb_eq; exact E|].
  exfalso. unfold SpecTax.maximal in Hm. apply negb_true_iff in Hm.
  assert (existsb (fun other =>
            match other with
            | [] => false
            | m :: ancestors =>
                negb (String.eqb m n2) && SpecTax.mem n2 ancestors
                && SpecTax.qualifies entries f other
            end) candidates = true) as Hex; [|congruence].
  apply existsb_exists. exists (n1 :: a1). split; [apply list_elem_of_In; exact Hin|].
  rewrite E, Hq. simpl. rewrite andb_true_r. apply mem_elem_of. exact Hn2.
Qed.

(** The lineage of an entry meets at most one selected node. *)
Lemma selected_once t l s1 s2 :
  SpecTax.find_lineage t taxid2parent = Some l ->
  s1 ∈ SpecTax.selected_lineages entries f candidates ->
  s2 ∈ SpecTax.selected_lineages entries f candidates ->
  hd "" s1 ∈ l -> hd "" s2 ∈ l -> hd "" s1 = hd "" s2.
Proof.
  intros Hl H1 H2.
  apply selected_inv in H1 as (Hin1 & Hq1 & Hm1 & n1 & a1 & -> & Hn1).
  apply selected_inv in H2 as (Hin2 & Hq2 & Hm2 & n2 & a2 & -> & Hn2).
  simpl. intros Hl1 Hl2.
  apply list_elem_of_split in Hl1 as (l1 & l2 & El).
  pose proof (walk_suffix _ _ _ _ _ _ _ Hl El) as Hs1.
  unfold SpecTax.find_lineage in Hn1. rewrite Hn1 in Hs1. injection Hs1 as ->.
  rewrite El in Hl2. apply elem_of_app in Hl2 as [Hl2 | Hl2].
  - apply list_elem_of_split in Hl2 as (l3 & l4 & El1).
    rewrite El1, <- app_assoc in El. simpl in El.
    pose proof (walk_suffix _ _ _ _ _ _ _ Hl El) as Hs2.
    unfold SpecTax.find_lineage in Hn2. rewrite Hn2 in Hs2. injection Hs2 as ->.
    symmetry. eapply selected_not_below; [exact Hin2 | exact Hq2 | exact Hm1|].
    apply elem_of_app. right. left.
  - apply elem_of_cons in Hl2 as [-> | Hl2]; [reflexivity|].
    eapply selected_not_below; [exact Hin1 | exact Hq1 | exact Hm2 | exact Hl2].
Qed.

End Selection.

(** What a classified answer of the BinClassifier is made of. *)
Lemma find_weighted_LCA_Lineages L taxid2parent f ls sc n :
  SpecTax.find_weighted_LCA L taxid2parent f = Some (Lineages ls sc n) ->
  exists entries candidates,
    SpecTax.expand (filter SpecTax.resolved L) taxid2parent = Some entries
    /\ SpecTax.all_lineages (SpecTax.nodes_of entries) taxid2parent = Some candidates
    /\ ls = SpecTax.selected_lineages entries f candidates
    /\ ls <> [].
Proof.
  unfold SpecTax.find_weighted_LCA.
  destruct (filter SpecTax.resolved L) as [|r rs] eqn:Er; [discriminate|].
  destruct (SpecTax.expand (r :: rs) taxid2parent) as [entries|] eqn:Ee; [|discriminate].
  destruct (SpecTax.all_lineages (SpecTax.nodes_of entries) taxid2parent)
    as [candidates|] eqn:Ec; [|discriminate].
  destruct (SpecTax.selected_lineages entries f candidates) as [|s ss] eqn:Es;
    [discriminate|].
  intros [= <- _ _]. exists entries, candidates.
  split; [reflexivity|]. split; [exact Ec|]. split; [symmetry; exact Es | discriminate].
Qed.

(** The number of lineages returned, times [f], is at most 1. *)
Lemma find_weighted_LCA_bound L taxid2parent f ls sc n :
  Forall (fun e : string * Q => 0 <= snd e)%Q L ->
  (0 < f)%Q ->
  SpecTax.find_weighted_LCA L taxid2parent f = Some (Lineages ls sc n) ->
  1 <= length ls /\ (inject_Z (Z.of_nat (length ls)) * f <= 1)%Q.
Proof.
  intros Hw Hf H.
  apply find_weighted_LCA_Lineages in H as (entries & candidates & He & Hc & -> & Hne).
  split.
  { destruct (SpecTax.selected_lineages entries f candidates); [congruence | simpl; lia]. }
  apply expand_Forall2 in He. apply all_lineages_Forall2 in Hc.
  assert (Hcl : Forall (fun c => exists t, SpecTax.find_lineage t taxid2parent = Some c)
                       candidates).
  { clear -Hc. induction Hc; constructor; eauto. }
  assert (Hel : Forall (fun e : SpecTax.entry =>
                          (0 <= snd e)%Q
                          /\ exists t, SpecTax.find_lineage t taxid2parent = Some (fst e))
                       entries).
  { assert (Forall (fun e : string * Q => 0 <= snd e)%Q (filter SpecTax.resolved L)) as Hw'.
    { apply Forall_forall. intros e Hin. apply list_elem_of_filter in Hin as [_ Hin].
      rewrite Forall_forall in Hw. apply Hw, Hin. }
    clear -He Hw'. induction He as [|r e rs es [H1 H2] _ IH]; constructor.
    - inversion Hw'; subst. split; [rewrite H2; assumption | eauto].
    - apply IH. inversion Hw'; assumption. }
  rewrite <- (length_map (hd "")).
  apply (supported_nodes_bound entries).
  - eapply Forall_impl; [exact Hel|]. intros e [H _]. exact H.
  - apply (sublist_NoDup _ (map (hd "") candidates)).
    + rewrite (lineages_heads _ _ _ Hc). apply distinct_NoDup.
    + apply fmap_sublist, sublist_filter.
  - intros e n1 n2 Hin H1 H2 Ht1 Ht2.
    rewrite Forall_forall in Hel. destruct (Hel e Hin) as [_ [t Ht]].
    apply list_elem_of_fmap in H1 as (s1 & -> & Hs1).
    apply list_elem_of_fmap in H2 as (s2 & -> & Hs2).
    eapply (selected_once taxid2parent entries f candidates Hcl t (fst e));
      [exact Ht | exact Hs1 | exact Hs2 | |]; apply mem_elem_of; assumption.
  - exact Hf.
  - intros n0 Hn. apply list_elem_of_fmap in Hn as (s & -> & Hs).
    apply (selected_inv taxid2parent entries f candidates Hcl) in Hs
      as (_ & Hq & _ & n' & anc & -> & _).
    simpl in Hq. apply andb_true_iff in Hq as [Hq _]. exact Hq.
Qed.

(** ** Non-negative bit-scores *)

Lemma Qmaximum_nonneg (l : list Q) :
  Forall (fun x => 0 <= x)%Q l -> (0 <= SpecTax.Qmaximum l)%Q.
Proof.
  unfold SpecTax.Qmaximum. destruct l as [|x rest]; [intros _; apply Qle_refl|].
  intros H. inversion H as [|? ? Hx Hrest]; subst. clear H.
  revert x Hx. induction Hrest as [|y rest Hy _ IH]; intros x Hx; simpl.
  - exact Hx.
  - apply IH. destruct (Qle_bool x y); assumption.
Qed.

Lemma find_LCA_for_ORF_nonneg hits index taxid2parent taxid top :
  Forall (fun h : hit => 0 <= snd h)%Q hits ->
  SpecTax.find_LCA_for_ORF hits index taxid2parent = Some (taxid, top) ->
  (0 <= top)%Q.
Proof.
  intros Hh. unfold SpecTax.find_LCA_for_ORF.
  destruct hits as [|h hits]; [intros [= _ <-]; apply Qle_refl|].
  assert (0 <= SpecTax.Qmaximum (map snd (h :: hits)))%Q as Hmax.
  { apply Qmaximum_nonneg. apply Forall_fmap. exact Hh. }
  destruct (omap _ _); [intros [= _ <-]; exact Hmax|].
  destruct (SpecTax.all_lineages _ _); [|discriminate].
  destruct (SpecTax.common_ancestor _); [|discriminate].
  intros [= _ <-]. exact Hmax.
Qed.

Lemma LCAs_ORFs_nonneg str_bitscore args T L :
  nonneg_bitscores T ->
  LCAs_ORFs_of_run (tax := SpecTax.spec_tax) str_bitscore args T = Some L ->
  Forall (fun e : string * Q => 0 <= snd e)%Q L.
Proof.
  intros HT HL. apply ORF_rows_entries in HL.
  induction HL as [|ORF [taxid top] ORFs L (hits & Hh & Hf) _ IH]; constructor.
  - simpl. eapply find_LCA_for_ORF_nonneg; [eapply HT; exact Hh | exact Hf].
  - exact IH.
Qed.

(** ** How many classifications a bin gets *)

Lemma Qfloor_bound (k : nat) (f : Q) :
  (0 < f)%Q -> (inject_Z (Z.of_nat k) * f <= 1)%Q -> (Z.of_nat k <= Qfloor (1 / f))%Z.
Proof.
  intros Hf H. rewrite <- (Qfloor_Z (Z.of_nat k)). apply Qfloor_resp_le.
  apply Qle_shift_div_l; assumption.
Qed.

Lemma above_half_single (k : nat) (f : Q) :
  (1 # 2 < f)%Q -> 1 <= k -> (inject_Z (Z.of_nat k) * f <= 1)%Q -> k = 1.
Proof.
  intros Hf Hk H. destruct (decide (k = 1)) as [|Hne]; [assumption|]. exfalso.
  assert (2 <= k) as H2 by lia.
  assert (inject_Z 2 * f <= inject_Z (Z.of_nat k) * f)%Q as Hle.
  { apply Qmult_le_compat_r.
    - rewrite <- Zle_Qle. lia.
    - apply Qlt_le_weak. eapply Qlt_trans; [|exact Hf]. reflexivity. }
  assert (inject_Z 2 * f <= 1)%Q as H1 by (eapply Qle_trans; eassumption).
  assert (1 < inject_Z 2 * f)%Q as H3.
  { apply (Qle_lt_trans _ (inject_Z 2 * (1 # 2))); [discriminate|].
    apply Qmult_lt_l; [reflexivity | exact Hf]. }
  exact (Qlt_not_le _ _ H3 H1).
Qed.

(** Away from the tie.  With the BinClassifier of the specification and
    bit-scores that are not negative: a classified bin has at least one
    lineage and, for [f > 0], at most [floor (1/f)] of them; for [f > 1/2]
    it has exactly one, and a run that ends normally has written exactly one
    data row to the per-bin report.  The closing warning about multiple
    classifications is given exactly when [f < 1/2]. *)
Theorem number_of_classifications_bound str_bitscore args T :
  nonneg_bitscores T ->
  (forall L ls sc n,
     LCAs_ORFs_of_run (tax := SpecTax.spec_tax) str_bitscore args T = Some L ->
     SpecTax.find_weighted_LCA L (taxid2parent T) (f args) = Some (Lineages ls sc n) ->
     (0 < f args)%Q ->
     1 <= length ls
     /\ (Z.of_nat (length ls) <= Qfloor (1 / f args))%Z
     /\ ((1 # 2 < f args)%Q -> length ls = 1))
  /\ ((1 # 2 < f args)%Q ->
      is_Some (snd (run (tax := SpecTax.spec_tax) str_bitscore args T)) ->
      exists row,
        outf1 (fst (run (tax := SpecTax.spec_tax) str_bitscore args T)) = [header1; row])
  /\ (warns_multiple args = true <-> (f args < 1 # 2)%Q).
Proof.
  intros HT.
  assert (Hagg : forall L ls sc n,
     LCAs_ORFs_of_run (tax := SpecTax.spec_tax) str_bitscore args T = Some L ->
     SpecTax.find_weighted_LCA L (taxid2parent T) (f args) = Some (Lineages ls sc n) ->
     (0 < f args)%Q ->
     1 <= length ls
     /\ (Z.of_nat (length ls) <= Qfloor (1 / f args))%Z
     /\ ((1 # 2 < f args)%Q -> length ls = 1)).
  { intros L ls sc n HL HW Hf.
    destruct (find_weighted_LCA_bound L (taxid2parent T) (f args) ls sc n) as [H1 H2];
      [eapply LCAs_ORFs_nonneg; eassumption | exact Hf | exact HW |].
    split; [exact H1|]. split; [apply Qfloor_bound; assumption|].
    intros Hhalf. eapply above_half_single; eassumption. }
  split; [exact Hagg|]. split.
  - intros Hhalf. rewrite run_exit, run_outf1.
    destruct (LCAs_ORFs_of_run str_bitscore args T) as [L|] eqn:HL;
      [|intros [? ?]; discriminate].
    unfold bin_rows. destruct (Nat.eqb (length L) 0); [eauto|].
    change (@find_weighted_LCA SpecTax.spec_tax) with SpecTax.find_weighted_LCA.
    destruct (SpecTax.find_weighted_LCA L (taxid2parent T) (f args))
      as [[| |ls sc n]|] eqn:HW; simpl; [eauto | eauto | | intros [? ?]; discriminate].
    assert (length ls = 1) as Hlen.
    { apply (Hagg L ls sc n eq_refl HW); [|exact Hhalf].
      eapply Qlt_trans; [|exact Hhalf]. reflexivity. }
    destruct ls as [|l [|l' ls]]; try discriminate. simpl.
    destruct (lineage_row args T (bin_name args) [l] sc n (0, l)); simpl; [eauto|].
    intros [? ?]; discriminate.
  - unfold warns_multiple. destruct (Qlt_le_dec (f args) (1 # 2)) as [Hlt | Hle].
    + tauto.
    + split; [discriminate|]. intros Hlt. exfalso. exact (Qlt_not_le _ _ Hlt Hle).
Qed.


Lemma number_of_classifications_bound_witness :
  let T := Examples.T_siblings 100 50 in
  let run8 := run (tax := SpecTax.spec_tax) Examples.str_whole (Examples.args_f (8 # 10)) T in
  nonneg_bitscores T
  /\ (exists row, outf1 (fst run8) = [header1; row])
  /\ (1 <= 2 /\ (Z.of_nat 2 <= Qfloor (1 / (3 # 10)))%Z).
Proof.
  intros T run8.
  assert (HT : nonneg_bitscores T).
  { intros ORF hits H. unfold T, Examples.T_siblings in H. simpl in H.
    apply lookup_insert_Some in H as [[_ <-] | [_ H]];
      [repeat constructor; discriminate|].
    apply lookup_insert_Some in H as [[_ <-] | [_ H]];
      [repeat constructor; discriminate|].
    rewrite lookup_empty in H. discriminate. }
  split; [exact HT|]. split.
  - apply (proj1 (proj2 (number_of_classifications_bound Examples.str_whole
                           (Examples.args_f (8 # 10)) T HT))).
    + reflexivity.
    + vm_compute. eauto.
  - destruct (proj1 (number_of_classifications_bound Examples.str_whole
                       (Examples.args_f (3 # 10)) T HT)
                    [("3", 100%Q); ("4", 50%Q)]
                    [["3"; "2"; "1"]; ["4"; "2"; "1"]]
                    [[100 # 150; 150 # 150; 150 # 150]; [50 # 150; 150 # 150; 150 # 150]]
                    2) as (H1 & H2 & _).
    + vm_compute; reflexivity.
    + vm_compute; reflexivity.
    + reflexivity.
    + split; [exact H1 | exact H2].
Defined.

(** ** The count of supporting ORFs *)

(** C4, as amended.  In a bin whose two resolved ORFs are taxon 3 with
    weight 100 and taxon 4 with weight 50, siblings under node 2 of the
    tree 1 -> 1, 2 -> 1, 3 -> 2, 4 -> 2, the classification with [f = 0.3]
    returns the two lineages of 3 and of 4, and both rows of the per-bin
    report carry the same count, [based on 2/N ORFs]: the one value of
    [based_on_n_ORFs] returned for the bin, which counts both ORFs. *)
Theorem C4_siblings_share_one_count str_bitscore args T :
  LCAs_ORFs_of_run (tax := SpecTax.spec_tax) str_bitscore args T
  = Some [("3", 100%Q); ("4", 50%Q)] ->
  taxid2parent T = Examples.tree ->
  f args = (3 # 10)%Q ->
  (exists sc,
     SpecTax.find_weighted_LCA [("3", 100%Q); ("4", 50%Q)] (taxid2parent T) (f args)
     = Some (Lineages [["3"; "2"; "1"]; ["4"; "2"; "1"]] sc 2))
  /\ outf1 (fst (run (tax := SpecTax.spec_tax) str_bitscore args T))
     = [header1;
        Py.tsv [bin_name args; "classified (1/2)";
                "based on 2/" ++ Py.str_nat (total_n_ORFs T) ++ " ORFs";
                Py.join ";" (rev (stars (tax := SpecTax.spec_tax) args T ["3"; "2"; "1"]));
                "1.00;1.00;0.67"];
        Py.tsv [bin_name args; "classified (2/2)";
                "based on 2/" ++ Py.str_nat (total_n_ORFs T) ++ " ORFs";
                Py.join ";" (rev (stars (tax := SpecTax.spec_tax) args T ["4"; "2"; "1"]));
                "1.00;1.00;0.33"]]
  /\ snd (run (tax := SpecTax.spec_tax) str_bitscore args T) = Some 1.
Proof.
  intros HL Htree Hf.
  assert (HW : SpecTax.find_weighted_LCA [("3", 100%Q); ("4", 50%Q)] Examples.tree (3 # 10)
               = Some (Lineages [["3"; "2"; "1"]; ["4"; "2"; "1"]]
                                [[100 # 150; 150 # 150; 150 # 150];
                                 [50 # 150; 150 # 150; 150 # 150]] 2))
    by (vm_compute; reflexivity).
  rewrite run_outf1, run_exit, HL, Htree, Hf. unfold bin_rows. simpl Nat.eqb. cbv iota.
  change (@find_weighted_LCA SpecTax.spec_tax) with SpecTax.find_weighted_LCA.
  rewrite Htree, Hf, HW.
  split; [eauto|]. split; reflexivity.
Qed.

(** The rows of the two classifications do not report a count of 1 each:
    both say [based on 2/2 ORFs]. *)
Lemma C4_both_rows_report_two :
  let args := Examples.args_f (3 # 10) in
  let T := Examples.T_siblings 100 50 in
  LCAs_ORFs_of_run (tax := SpecTax.spec_tax) Examples.str_whole args T
  = Some [("3", 100%Q); ("4", 50%Q)]
  /\ outf1 (fst (run (tax := SpecTax.spec_tax) Examples.str_whole args T))
     = [header1;
        Py.tsv ["bin.fa"; "classified (1/2)"; "based on 2/2 ORFs"; "1;2*;3"; "1.00;1.00;0.67"];
        Py.tsv ["bin.fa"; "classified (2/2)"; "based on 2/2 ORFs"; "1;2*;4"; "1.00;1.00;0.33"]]
  /\ "based on 2/2 ORFs" <> "based on 1/2 ORFs".
Proof.
  intros args T. split; [vm_compute; reflexivity|].
  split; [vm_compute; reflexivity | discriminate].
Qed.

Lemma C4_siblings_share_one_count_witness :
  let args := Examples.args_f (3 # 10) in
  let T := Examples.T_siblings 100 50 in
  snd (run (tax := SpecTax.spec_tax) Examples.str_whole args T) = Some 1.
Proof.
  intros args T.
  apply (C4_siblings_share_one_count Examples.str_whole args T).
  - vm_compute; reflexivity.
  - reflexivity.
  - reflexivity.
Defined.

(** ** The options [-r] and [-f] *)

(** C8.  [-r] accepts every integer of [0..49] (and not 50, nor 2.5), its
    default is 5; [-f] accepts every [i/100] with [i] in [0..99], each of
    them in [[0, 0.99]] (and not 1).  The default of [-f] is the [Decimal]
    made from the binary floating-point number nearest to 0.3: it is
    5404319552844595 / 2^54, a little less than 3/10, not 3/10. *)
Theorem C8_options_r_and_f :
  (forall i, i < 50 -> Args.accepts_r (Args.float_of_nat i) = true)
  /\ Args.accepts_r (Args.float_of_nat 50) = false
  /\ Args.accepts_r 2.5%float = false
  /\ Args.default_r = 5%Q
  /\ (forall i, i < 100 ->
        Args.accepts_f (PrimFloat.div (Args.float_of_nat i) (Args.float_of_nat 100)) = true)
  /\ Forall (fun c => exists q, Args.Decimal_of_float c = Some q
                                /\ (0 <= q)%Q /\ (q <= 99 # 100)%Q)
            Args.choices_f
  /\ Args.accepts_f (Args.float_of_nat 1) = false
  /\ Args.default_f = Some (5404319552844595 # 18014398509481984)
  /\ ~ (5404319552844595 # 18014398509481984 == 3 # 10)%Q
  /\ (5404319552844595 # 18014398509481984 < 3 # 10)%Q.
Proof.
  split.
  { intros i Hi. do 50 (destruct i as [|i]; [vm_compute; reflexivity|]). lia. }
  split; [vm_compute; reflexivity|]. split; [vm_compute; reflexivity|].
  split; [reflexivity|].
  split.
  { intros i Hi. do 100 (destruct i as [|i]; [vm_compute; reflexivity|]). lia. }
  split.
  { unfold Args.choices_f. simpl seq. simpl map.
    repeat (constructor; [eexists; split; [vm_compute; reflexivity
                                          | split; discriminate]|]).
    constructor. }
  split; [vm_compute; reflexivity|].
  split; [vm_compute; reflexivity|].
  split; [discriminate | reflexivity].
Qed.

(** ** Fields of a line *)

Lemma append_cons c (s t : string) : String c s ++ t = String c (s ++ t).
Proof. reflexivity. Qed.

Lemma append_nil_r (s : string) : s ++ "" = s.
Proof.
  induction s as [|c s IH]; [reflexivity|]. rewrite append_cons, IH. reflexivity.
Qed.

Lemma append_assoc (s1 s2 s3 : string) : (s1 ++ s2) ++ s3 = s1 ++ (s2 ++ s3).
Proof.
  induction s1 as [|c s1 IH]; [reflexivity|]. rewrite !append_cons, IH. reflexivity.
Qed.

Lemma rstrip_LF_line (s : string) :
  Py.free_of "010"%char s = true -> Py.rstrip_LF (s ++ Py.LF) = s.
Proof.
  induction s as [|c s IH]; simpl.
  - reflexivity.
  - intros H. apply andb_true_iff in H as [Hc Hs]. rewrite (IH Hs).
    apply negb_true_iff in Hc. rewrite Hc. destruct s; reflexivity.
Qed.

Lemma free_of_app c (s1 s2 : string) :
  Py.free_of c (s1 ++ s2) = Py.free_of c s1 && Py.free_of c s2.
Proof.
  induction s1 as [|a s1 IH]; simpl; [reflexivity|].
  rewrite IH, andb_assoc. reflexivity.
Qed.

Lemma split_on_field c (fld rest cur : string) :
  Py.free_of c fld = true ->
  Py.split_on c (fld ++ rest) cur = Py.split_on c rest (cur ++ fld).
Proof.
  revert cur. induction fld as [|a fld IH]; intros cur; simpl.
  - intros _. rewrite append_nil_r. reflexivity.
  - intros H. apply andb_true_iff in H as [Ha Hf]. apply negb_true_iff in Ha.
    rewrite Ha, (IH _ Hf), append_assoc. reflexivity.
Qed.

Lemma split_on_join c (fields : list string) (cur : string) :
  fields <> [] ->
  Forall (fun fld => Py.free_of c fld = true) fields ->
  Py.split_on c (Py.join (String c EmptyString) fields) cur
  = match fields with
    | [] => []
    | fld :: rest => (cur ++ fld) :: rest
    end.
Proof.
  intros Hne Hall. revert cur Hne.
  induction Hall as [|fld rest Hf Hrest IH]; intros cur Hne; [congruence|].
  unfold Py.join in *. destruct rest as [|fld' rest].
  - simpl. rewrite <- (append_nil_r fld) at 1.
    rewrite (split_on_field _ _ _ _ Hf). reflexivity.
  - change (String.concat (String c "") (fld :: fld' :: rest))
      with (fld ++ String c (String.concat (String c "") (fld' :: rest))).
    rewrite (split_on_field _ _ _ _ Hf). simpl. rewrite Ascii.eqb_refl.
    rewrite IH by discriminate. reflexivity.
Qed.

Lemma free_of_join c sep (fields : list string) :
  Py.free_of c sep = true ->
  Forall (fun fld => Py.free_of c fld = true) fields ->
  Py.free_of c (Py.join sep fields) = true.
Proof.
  intros Hsep. unfold Py.join. induction 1 as [|fld rest Hf Hrest IH]; [reflexivity|].
  destruct rest as [|fld' rest]; [exact Hf|].
  change (String.concat sep (fld :: fld' :: rest))
    with (fld ++ sep ++ String.concat sep (fld' :: rest)).
  rewrite !free_of_app, Hf, Hsep, IH. reflexivity.
Qed.

(** A record written with [tsv] reads back as its fields, when no field
    holds a tab or a newline. *)
Lemma fields_of_tsv (fields : list string) :
  fields <> [] ->
  Forall (fun fld => Py.free_of "009"%char fld = true) fields ->
  Forall (fun fld => Py.free_of "010"%char fld = true) fields ->
  Py.fields_of (Py.tsv fields) = fields.
Proof.
  intros Hne Htab Hlf. unfold Py.fields_of, Py.tsv.
  rewrite rstrip_LF_line by (apply free_of_join; [reflexivity | exact Hlf]).
  unfold Py.TAB. rewrite split_on_join by assumption.
  destruct fields; [congruence | reflexivity].
Qed.

(** * The rest of [parse_arguments] and of [run] *)

(** ** Extra arguments and [--top] *)

Lemma filter_enumerate_from {A} (P : nat * A -> bool) (l : list A) (s : nat) :
  (forall i x, s <= i -> P (i, x) = true) ->
  map snd (List.filter P (combine (seq s (length l)) l)) = l.
Proof.
  revert s. induction l as [|x l IH]; intros s HP; [reflexivity|].
  simpl. rewrite HP by lia. simpl. f_equal. apply IH.
  intros i y Hi. apply HP. lia.
Qed.

(** The only extra argument that is dropped is a leading ['bin']. *)
Lemma strip_bin_spec (extra_args : list string) :
  Cli.strip_bin extra_args
  = match extra_args with
    | x :: rest => if String.eqb x "bin" then rest else extra_args
    | [] => []
    end.
Proof.
  unfold Cli.strip_bin, Py.enumerate. destruct extra_args as [|x rest]; [reflexivity|].
  simpl. destruct (String.eqb x "bin"); simpl.
  - apply filter_enumerate_from. intros [|i] y Hi; [lia | reflexivity].
  - f_equal. apply filter_enumerate_from. intros [|i] y Hi; [lia | reflexivity].
Qed.

(** X1.  [parse_arguments] goes on exactly when there is no extra argument
    or the single extra argument ['bin']; a ['bin'] that is not the first
    extra argument is reported like any other. *)
Theorem extra_arguments_accepted (extra_args : list string) :
  (Cli.too_much_arguments extra_args = false
   <-> extra_args = [] \/ extra_args = ["bin"])
  /\ (forall x rest, x <> "bin" -> Cli.strip_bin (x :: rest) = x :: rest)
  /\ (forall rest, Cli.strip_bin ("bin" :: rest) = rest).
Proof.
  split; [|split].
  - unfold Cli.too_much_arguments. rewrite strip_bin_spec.
    destruct extra_args as [|x rest]; simpl.
    + split; [auto | reflexivity].
    + destruct (String.eqb x "bin") eqn:E.
      * apply String.eqb_eq in E as ->. destruct rest as [|y rest]; simpl.
        -- split; [auto | reflexivity].
        -- split; [discriminate | intros [H | H]; discriminate].
      * simpl. split; [discriminate|]. intros [H | H]; [discriminate|].
        injection H as -> _. rewrite String.eqb_refl in E. discriminate.
  - intros x rest Hx. rewrite strip_bin_spec.
    apply String.eqb_neq in Hx. rewrite Hx. reflexivity.
  - intros rest. rewrite strip_bin_spec. reflexivity.
Qed.




(** ** The steps to carry out *)

(** X3.  [run] stops at once exactly when an alignment file is supplied
    without a proteins file.  Otherwise the list of steps ends with
    ['classify'], which occurs once; the alignment is made exactly when no
    alignment file is supplied, proteins are predicted exactly when no
    proteins file is supplied, and predicting proteins always comes with
    making the alignment. *)
Theorem step_list_cases (proteins_fasta alignment_file : option string) :
  (Preflight.step_list_of proteins_fasta alignment_file = None
   <-> Preflight.truthy alignment_file = true
       /\ Preflight.truthy proteins_fasta = false)
  /\ (forall step_list,
        Preflight.step_list_of proteins_fasta alignment_file = Some step_list ->
        last step_list = Some "classify"
        /\ count_occ string_dec step_list "classify" = 1
        /\ Preflight.In_list "align" step_list
           = negb (Preflight.truthy alignment_file)
        /\ Preflight.In_list "predict_proteins" step_list
           = negb (Preflight.truthy proteins_fasta)
        /\ (Preflight.In_list "predict_proteins" step_list = true ->
            Preflight.In_list "align" step_list = true)).
Proof.
  unfold Preflight.step_list_of.
  destruct (Preflight.truthy proteins_fasta), (Preflight.truthy alignment_file); simpl.
  - split; [split; [discriminate | intros [_ H]; discriminate]|].
    intros sl [= <-]. repeat split; auto.
  - split; [split; [discriminate | intros [H _]; discriminate]|].
    intros sl [= <-]. repeat split; auto.
  - split; [split; auto|]. intros sl H. discriminate.
  - split; [split; [discriminate | intros [H _]; discriminate]|].
    intros sl [= <-]. repeat split; auto.
Qed.

Lemma step_list_cases_witness :
  Preflight.step_list_of None None = Some ["predict_proteins"; "align"; "classify"]
  /\ last ["predict_proteins"; "align"; "classify"] = Some "classify"
  /\ Preflight.step_list_of None (Some "bin.alignment.diamond") = None.
Proof.
  split; [reflexivity|]. split.
  - exact (proj1 (proj2 (step_list_cases None None) _ eq_refl)).
  - apply (proj1 (step_list_cases None (Some "bin.alignment.diamond"))).
    split; reflexivity.
Defined.

(** ** The pre-flight checks *)

Lemma existsb_snoc (l : list bool) (b : bool) :
  existsb (fun e => e) (l ++ [b]) = existsb (fun e => e) l || b.
Proof. rewrite existsb_app. simpl. rewrite orb_false_r. reflexivity. Qed.

(** X4.  Without [--force] no existing file is overwritten: if
    [check.check_output_file] objects to one of the files that the rest of
    [run] writes, [run] exits before writing anything.  Every one of these
    files has a name made from [args.out_prefix]. *)
Theorem preflight_protects_outputs C o step_list path :
  Preflight.force o = false ->
  Some path ∈ Preflight.written_files step_list (snd (Preflight.preflight C o step_list)) ->
  (Preflight.check_output_file C path = true ->
   Preflight.preflight_exits C o step_list = true)
  /\ exists suffix, path = Preflight.out_prefix o ++ suffix.
Proof.
  intros Hforce Hin. unfold Preflight.preflight_exits, Preflight.written_files,
    Preflight.preflight in *. rewrite Hforce in *. simpl negb in *. cbv iota in *.
  destruct (Preflight.In_list "predict_proteins" step_list),
    (Preflight.In_list "align" step_list); simpl in *;
    repeat (apply elem_of_cons in Hin as [Hin | Hin]; [injection Hin as ->|]);
    try (inversion Hin; fail);
    (split; [intros Hc; rewrite Hc; repeat (rewrite ?orb_true_r; simpl); reflexivity
            | eexists; reflexivity]).
Qed.

Lemma preflight_protects_outputs_witness :
  let C := Preflight.Checks (fun _ => false) (fun _ => false) (fun _ => false)
                            (fun _ => false)
                            (fun p => String.eqb p "out.BAT.ORF2LCA.txt")
                            (fun _ _ _ _ _ _ _ _ => false) (fun _ => false) in
  let o := Preflight.Options "bin.fa" "out.BAT" (Some "bin.faa") (Some "bin.diamond")
                             "prodigal" "diamond" "tax" "db" false
                             "tax/nodes.dmp" "tax/names.dmp" "db/x.dmnd" "db/x.f2t" "db/x.tmo" in
  Preflight.step_list_of (Preflight.proteins_fasta o) (Preflight.alignment_file o)
  = Some ["classify"]
  /\ Preflight.preflight_exits C o ["classify"] = true.
Proof.
  intros C o. split; [reflexivity|].
  apply (proj1 (preflight_protects_outputs C o ["classify"] "out.BAT.ORF2LCA.txt"
                  eq_refl ltac:(vm_compute; right; left))).
  reflexivity.
Defined.

(** X5.  With [--force] the answers of [check.check_output_file] play no
    part in the pre-flight; and the file names set during the pre-flight
    never depend on what the checks answer. *)
Theorem preflight_force C o step_list :
  (Preflight.force o = true ->
   forall g,
     Preflight.preflight (with_check_output_file C g) o step_list
     = Preflight.preflight C o step_list)
  /\ (forall C', snd (Preflight.preflight C' o step_list)
                 = snd (Preflight.preflight C o step_list)).
Proof.
  split.
  - intros Hforce g. unfold Preflight.preflight. rewrite Hforce. simpl negb. cbv iota.
    destruct (Preflight.In_list "predict_proteins" step_list),
      (Preflight.In_list "align" step_list); reflexivity.
  - intros C'. unfold Preflight.preflight.
    destruct (Preflight.In_list "predict_proteins" step_list),
      (Preflight.In_list "align" step_list), (Preflight.force o); reflexivity.
Qed.

Lemma preflight_force_witness :
  let C := Preflight.Checks (fun _ => false) (fun _ => false) (fun _ => false)
                            (fun _ => false) (fun _ => true)
                            (fun _ _ _ _ _ _ _ _ => false) (fun _ => false) in
  let o := Preflight.Options "bin.fa" "out.BAT" None None
                             "prodigal" "diamond" "tax" "db" true
                             "tax/nodes.dmp" "tax/names.dmp" "db/x.dmnd" "db/x.f2t" "db/x.tmo" in
  let step_list := ["predict_proteins"; "align"; "classify"] in
  Preflight.preflight_exits C o step_list = false
  /\ Preflight.preflight (with_check_output_file C (fun _ => false)) o step_list
     = Preflight.preflight C o step_list.
Proof.
  intros C o step_list. split; [reflexivity|].
  apply (proj1 (preflight_force C o step_list)). reflexivity.
Defined.

(** X6.  The pre-flight consults a check only for a step that is to be
    carried out.  When a proteins file is supplied the Prodigal binaries are
    not checked; when an alignment file is supplied (with the proteins file
    it needs) neither the Prodigal nor the DIAMOND binaries are checked; and
    [check.check_fasta] is consulted only on a supplied proteins file, never
    on the one Prodigal is going to write. *)
Theorem preflight_checks_follow_steps C o step_list :
  Preflight.step_list_of (Preflight.proteins_fasta o) (Preflight.alignment_file o)
  = Some step_list ->
  (Preflight.truthy (Preflight.proteins_fasta o) = true ->
   forall prodigal,
     Preflight.preflight
       (with_check_binaries C prodigal (Preflight.check_diamond_binaries C)) o step_list
     = Preflight.preflight C o step_list)
  /\ (Preflight.truthy (Preflight.alignment_file o) = true ->
      forall prodigal diamond,
        Preflight.preflight (with_check_binaries C prodigal diamond) o step_list
        = Preflight.preflight C o step_list)
  /\ (Preflight.truthy (Preflight.proteins_fasta o) = false ->
      forall g,
        Preflight.preflight (with_check_fasta C g) o step_list
        = Preflight.preflight C o step_list).
Proof.
  intros Hsteps. unfold Preflight.step_list_of in Hsteps.
  destruct (Preflight.truthy (Preflight.proteins_fasta o)),
    (Preflight.truthy (Preflight.alignment_file o));
    simpl in Hsteps; try discriminate; injection Hsteps as <-;
    unfold Preflight.preflight; simpl;
    (split; [|split]); try discriminate;
    intros _; intros; destruct (Preflight.force o); reflexivity.
Qed.

Lemma preflight_checks_follow_steps_witness :
  let C := Preflight.Checks (fun _ => false) (fun _ => false) (fun _ => false)
                            (fun _ => false) (fun _ => false)
                            (fun _ _ _ _ _ _ _ _ => false) (fun _ => false) in
  let o := Preflight.Options "bin.fa" "out.BAT" (Some "bin.faa") (Some "bin.diamond")
                             "prodigal" "diamond" "tax" "db" false
                             "tax/nodes.dmp" "tax/names.dmp" "db/x.dmnd" "db/x.f2t" "db/x.tmo" in
  Preflight.preflight (with_check_binaries C (fun _ => true) (fun _ => true)) o ["classify"]
  = Preflight.preflight C o ["classify"].
Proof.
  intros C o.
  apply (proj1 (proj2 (preflight_checks_follow_steps C o ["classify"] eq_refl)) eq_refl).
Defined.

(** ** Which ORFs are reported, and how many *)

(** The ORFs gone through are the ORFs that [contig2ORFs] lists for a
    contig of the bin. *)
Lemma report_order_elem (T : tables) (ORF : string) :
  ORF ∈ report_order T
  <-> exists contig ORFs,
        contig ∈ contig_names T
        /\ contig2ORFs T !! contig = Some ORFs
        /\ ORF ∈ ORFs.
Proof.
  unfold report_order. rewrite list_elem_of_In, in_flat_map. split.
  - intros (contig & Hc & HORF).
    destruct (contig2ORFs T !! contig) as [ORFs|] eqn:E; [|inversion HORF].
    exists contig, ORFs. split; [|split; [exact E | apply list_elem_of_In; exact HORF]].
    apply list_elem_of_In in Hc. unfold Py.sorted in Hc.
    rewrite merge_sort_Permutation in Hc. exact Hc.
  - intros (contig & ORFs & Hc & E & HORF). exists contig. split.
    + apply list_elem_of_In. unfold Py.sorted. rewrite merge_sort_Permutation. exact Hc.
    + rewrite E. apply list_elem_of_In. exact HORF.
Qed.

(** X7.  The ORFs reported are exactly the ORFs that [contig2ORFs] lists
    for a contig of the bin: every data row of the per-ORF report is the row
    of such an ORF, so that the ORFs of contigs that are not in
    [contig_names] are left out and a contig without an entry in
    [contig2ORFs] is skipped; and when the loop is not interrupted each such
    ORF has its row in the report. *)
Theorem ORFs_of_the_bin_are_reported {tax : Tax} str_bitscore args T :
  (forall line,
     line ∈ outf2 (fst (run str_bitscore args T)) ->
     line = header2
     \/ exists contig ORFs ORF,
          contig ∈ contig_names T
          /\ contig2ORFs T !! contig = Some ORFs
          /\ ORF ∈ ORFs
          /\ ORF_report_row str_bitscore args T ORF line)
  /\ (is_Some (LCAs_ORFs_of_run str_bitscore args T) ->
      forall contig ORFs ORF,
        contig ∈ contig_names T ->
        contig2ORFs T !! contig = Some ORFs ->
        ORF ∈ ORFs ->
        exists line,
          line ∈ outf2 (fst (run str_bitscore args T))
          /\ ORF_report_row str_bitscore args T ORF line).
Proof.
  rewrite run_outf2. split.
  - intros line Hin. apply elem_of_cons in Hin as [-> | Hin]; [left; reflexivity|].
    right. apply ORF_rows_lines in Hin as (ORF & es & HORF & Hrow).
    apply report_order_elem in HORF as (contig & ORFs & Hc & HORFs & HORF).
    exists contig, ORFs, ORF. repeat split; try assumption.
    eapply ORF_row_report_row. exact Hrow.
  - intros [L HL] contig ORFs ORF Hc HORFs HORF.
    assert (ORF ∈ report_order T) as Hin.
    { apply report_order_elem. exists contig, ORFs. auto. }
    destruct (ORF_rows_complete str_bitscore args T (bin_name args) _ L ORF HL Hin)
      as (line & es & Hrow & Hline & _).
    exists line. split; [right; exact Hline|].
    eapply ORF_row_report_row. exact Hrow.
Qed.

Lemma ORFs_of_the_bin_are_reported_witness :
  let args := Examples.args_f (3 # 10) in
  let T := Examples.T_siblings 100 50 in
  exists line,
    line ∈ outf2 (fst (run (tax := SpecTax.spec_tax) Examples.str_whole args T))
    /\ ORF_report_row (tax := SpecTax.spec_tax) Examples.str_whole args T "c1_1" line.
Proof.
  intros args T.
  apply (proj2 (ORFs_of_the_bin_are_reported (tax := SpecTax.spec_tax)
                  Examples.str_whole args T)
               ltac:(vm_compute; eauto) "c1" ["c1_1"]).
  - right. left.
  - vm_compute. reflexivity.
  - left.
Defined.

Lemma total_n_ORFs_report_order (T : tables) :
  total_n_ORFs T = length (report_order T).
Proof.
  unfold total_n_ORFs, report_order. rewrite length_flat_map.
  rewrite <- (Permutation_list_sum
                (Permutation_map _ (merge_sort_Permutation String.le (contig_names T)))).
  unfold Py.sorted. f_equal. apply map_ext. intros contig.
  destruct (contig2ORFs T !! contig); reflexivity.
Qed.

(** X8.  The total of the reason [based on n/total ORFs] is the number of
    ORFs reported: when the per-ORF loop is not interrupted, the per-ORF
    report has the header and [total_n_ORFs] rows; it never has more. *)
Theorem total_n_ORFs_counts_the_rows {tax : Tax} str_bitscore args T :
  total_n_ORFs T = length (report_order T)
  /\ length (outf2 (fst (run str_bitscore args T))) <= S (total_n_ORFs T)
  /\ (is_Some (LCAs_ORFs_of_run str_bitscore args T) ->
      length (outf2 (fst (run str_bitscore args T))) = S (total_n_ORFs T)).
Proof.
  split; [apply total_n_ORFs_report_order|].
  rewrite run_outf2, total_n_ORFs_report_order. simpl.
  destruct (ORF_rows_prefix str_bitscore args T (bin_name args) (report_order T))
    as (k & Hk & Hrows & Hall).
  apply Forall2_length in Hrows. rewrite length_take in Hrows.
  split; [lia|]. intros Hsome. specialize (Hall Hsome). lia.
Qed.

Lemma total_n_ORFs_counts_the_rows_witness :
  let run0 := run (tax := SpecTax.spec_tax) Examples.str_whole (Examples.args_f (3 # 10))
                  (Examples.T_siblings 100 50) in
  total_n_ORFs (Examples.T_siblings 100 50) = 2
  /\ length (outf2 (fst run0)) = 3.
Proof.
  intros run0. split; [reflexivity|].
  apply (proj2 (proj2 (total_n_ORFs_counts_the_rows (tax := SpecTax.spec_tax)
                         Examples.str_whole (Examples.args_f (3 # 10))
                         (Examples.T_siblings 100 50)))).
  vm_compute. eauto.
Defined.

(** ** The rows of the classifications and [n_classified_bins] *)

Lemma rows_until_length {A} (row : A -> option string) (l : list A) :
  length (fst (rows_until row l)) <= length l
  /\ (snd (rows_until row l) = true -> length (fst (rows_until row l)) = length l).
Proof.
  induction l as [|a l [IH1 IH2]]; simpl; [auto|].
  destruct (row a); simpl; [|split; [lia | discriminate]].
  split; [lia | intros H; rewrite (IH2 H); reflexivity].
Qed.

Lemma lineage_row_None {tax : Tax} args T bin_ lineages scores n il :
  lineage_row args T bin_ lineages scores n il = None <-> scores !! fst il = None.
Proof.
  unfold lineage_row. destruct (scores !! fst il); split; (discriminate || reflexivity).
Qed.

(** The rows of the lineages numbered from [s] on: all of them when there
    is a list of scores for each, else only those that have one. *)
Lemma lineage_rows_scores {tax : Tax} args T bin_ lineages scores n
    (l : list (list string)) (s : nat) :
  (s + length l <= length scores ->
   snd (rows_until (lineage_row args T bin_ lineages scores n)
                   (combine (seq s (length l)) l)) = true
   /\ length (fst (rows_until (lineage_row args T bin_ lineages scores n)
                              (combine (seq s (length l)) l))) = length l)
  /\ (s <= length scores < s + length l ->
      snd (rows_until (lineage_row args T bin_ lineages scores n)
                      (combine (seq s (length l)) l)) = false
      /\ length (fst (rows_until (lineage_row args T bin_ lineages scores n)
                                 (combine (seq s (length l)) l)))
         = length scores - s).
Proof.
  revert s. induction l as [|x l IH]; intros s; simpl.
  - split; [auto | lia].
  - destruct (lineage_row args T bin_ lineages scores n (s, x)) as [line|] eqn:E; simpl.
    + assert (s < length scores) as Hs.
      { destruct (scores !! s) eqn:E'; [apply lookup_lt_Some in E'; exact E'|].
        apply (lineage_row_None args T bin_ lineages scores n (s, x)) in E'. congruence. }
      destruct (IH (S s)) as [IH1 IH2]. split.
      * intros H. destruct IH1 as [-> ->]; [lia | auto].
      * intros H. destruct IH2 as [-> ->]; [lia|]. split; [reflexivity | lia].
    + apply lineage_row_None in E. simpl in E. apply lookup_ge_None in E.
      split; [lia|]. intros H. split; [reflexivity | lia].
Qed.

(** X9.  The number of classified bins that [run] announces agrees with
    the per-bin report: it is 0 when the report has the row of an
    unclassified bin, and 1 when [tax.find_weighted_LCA] returned lineages,
    in which case the report has one row for each of them. *)
Theorem n_classified_bins_agrees {tax : Tax} str_bitscore args T n :
  snd (run str_bitscore args T) = Some n ->
  (n = 0
   /\ exists reason,
        outf1 (fst (run str_bitscore args T))
        = [header1; Py.tsv [bin_name args; "unclassified"; reason]])
  \/ (n = 1
      /\ exists L lineages scores k,
           LCAs_ORFs_of_run str_bitscore args T = Some L
           /\ L <> []
           /\ find_weighted_LCA L (taxid2parent T) (f args)
              = Some (Lineages lineages scores k)
           /\ length (outf1 (fst (run str_bitscore args T))) = S (length lineages)).
Proof.
  rewrite run_exit, run_outf1.
  destruct (LCAs_ORFs_of_run str_bitscore args T) as [L|]; [|discriminate].
  unfold bin_rows. destruct L as [|e L]; simpl.
  { intros [= <-]. left. eauto. }
  destruct (find_weighted_LCA (e :: L) (taxid2parent T) (f args))
    as [[| |ls sc k]|] eqn:HW; simpl; try discriminate.
  - intros [= <-]. left. eauto.
  - intros [= <-]. left. eauto.
  - destruct (snd (rows_until _ _)) eqn:Hr; [|discriminate].
    intros [= <-]. right. split; [reflexivity|].
    exists (e :: L), ls, sc, k. split; [reflexivity|]. split; [discriminate|].
    split; [exact HW|]. f_equal.
    rewrite (proj2 (rows_until_length _ _) Hr). unfold Py.enumerate.
    rewrite length_combine, length_seq. lia.
Qed.

Lemma n_classified_bins_agrees_witness :
  let run0 := run (tax := SpecTax.spec_tax) Examples.str_whole (Examples.args_f (3 # 10))
                  (Examples.T_siblings 100 50) in
  snd run0 = Some 1 /\ length (outf1 (fst run0)) = 3.
Proof.
  intros run0. split; [vm_compute; reflexivity|].
  destruct (n_classified_bins_agrees (tax := SpecTax.spec_tax) Examples.str_whole
              (Examples.args_f (3 # 10)) (Examples.T_siblings 100 50) 1)
    as [[H _] | (_ & L & ls & sc & k & HL & _ & HW & Hlen)].
  - vm_compute; reflexivity.
  - discriminate.
  - vm_compute; reflexivity.
Defined.

(** X10.  [run] reads [lineages_scores[i]] for each lineage.  When
    [tax.find_weighted_LCA] returns a list of scores for every lineage, all
    the rows are written and the bin counts as classified; when it returns
    fewer, [run] writes the rows of the lineages that have one and then
    raises. *)
Theorem scores_missing_for_a_lineage {tax : Tax} str_bitscore args T L lineages scores k :
  LCAs_ORFs_of_run str_bitscore args T = Some L ->
  L <> [] ->
  find_weighted_LCA L (taxid2parent T) (f args) = Some (Lineages lineages scores k) ->
  (length lineages <= length scores ->
   snd (run str_bitscore args T) = Some 1
   /\ length (outf1 (fst (run str_bitscore args T))) = S (length lineages))
  /\ (length scores < length lineages ->
      snd (run str_bitscore args T) = None
      /\ length (outf1 (fst (run str_bitscore args T))) = S (length scores)).
Proof.
  intros HL Hne HW. rewrite run_exit, run_outf1, HL. unfold bin_rows.
  destruct L as [|e L]; [congruence|]. simpl Nat.eqb. cbv iota. rewrite HW. simpl.
  pose proof (lineage_rows_scores args T (bin_name args) lineages scores k lineages 0)
    as [H1 H2]. simpl in H1, H2. unfold Py.enumerate.
  split; intros H.
  - destruct H1 as [-> ->]; [lia | auto].
  - destruct H2 as [-> ->]; [lia|]. split; [reflexivity | f_equal; lia].
Qed.

Lemma scores_missing_for_a_lineage_witness :
  let short_tax :=
    Build_Tax SpecTax.find_LCA_for_ORF SpecTax.find_lineage SpecTax.star_lineage
              (fun _ _ _ => Some (Lineages [["3"; "2"; "1"]; ["4"; "2"; "1"]]
                                           [[1%Q; 1%Q; 1%Q]] 2)) in
  let args := Examples.args_f (3 # 10) in
  let T := Examples.T_siblings 100 50 in
  (snd (run (tax := short_tax) Examples.str_whole args T) = None
   /\ length (outf1 (fst (run (tax := short_tax) Examples.str_whole args T))) = 2)
  /\ (snd (run (tax := SpecTax.spec_tax) Examples.str_whole args T) = Some 1
      /\ length (outf1 (fst (run (tax := SpecTax.spec_tax) Examples.str_whole args T))) = 3).
Proof.
  intros short_tax args T. split.
  - apply (proj2 (scores_missing_for_a_lineage (tax := short_tax) Examples.str_whole args T
                    [("3", 100%Q); ("4", 50%Q)]
                    [["3"; "2"; "1"]; ["4"; "2"; "1"]] [[1%Q; 1%Q; 1%Q]] 2
                    ltac:(vm_compute; reflexivity) ltac:(discriminate)
                    ltac:(reflexivity))).
    simpl. lia.
  - apply (proj1 (scores_missing_for_a_lineage (tax := SpecTax.spec_tax)
                    Examples.str_whole args T
                    [("3", 100%Q); ("4", 50%Q)]
                    [["3"; "2"; "1"]; ["4"; "2"; "1"]]
                    [[100 # 150; 150 # 150; 150 # 150]; [50 # 150; 150 # 150; 150 # 150]] 2
                    ltac:(vm_compute; reflexivity) ltac:(discriminate)
                    ltac:(vm_compute; reflexivity))).
    simpl. lia.
Defined.

(** ** When a [tax] function raises in the per-ORF loop *)

Lemma ORF_row_None {tax : Tax} str_bitscore args T bin_ ORF :
  ORF_row str_bitscore args T bin_ ORF = None <-> ORF_raises T ORF.
Proof.
  unfold ORF_row, ORF_raises. split.
  - destruct (ORF2hits T !! ORF) as [hits|]; [|discriminate].
    intros H. exists hits. split; [reflexivity|].
    destruct (find_LCA_for_ORF hits _ _) as [[taxid top]|]; [|left; reflexivity].
    right. exists taxid, top. split; [reflexivity|].
    destruct (Py.startswith taxid _); [discriminate|]. split; [reflexivity|].
    destruct (find_lineage taxid _); [discriminate | reflexivity].
  - intros (hits & -> & [-> | (taxid & top & -> & -> & ->)]); reflexivity.
Qed.

Lemma ORF_rows_first_raise {tax : Tax} str_bitscore args T bin_ l k ORF :
  l !! k = Some ORF ->
  ORF_raises T ORF ->
  (forall j ORF', j < k -> l !! j = Some ORF' -> ~ ORF_raises T ORF') ->
  snd (ORF_rows str_bitscore args T bin_ l) = None
  /\ length (fst (ORF_rows str_bitscore args T bin_ l)) = k.
Proof.
  revert k. induction l as [|ORF0 l IH]; intros k Hk Hr Hbefore; [destruct k; discriminate|].
  simpl. destruct k as [|k]; simpl in Hk.
  - injection Hk as ->.
    rewrite (proj2 (ORF_row_None str_bitscore args T bin_ ORF) Hr). auto.
  - destruct (ORF_row str_bitscore args T bin_ ORF0) as [[line es]|] eqn:E.
    + destruct (IH k Hk Hr) as [H1 H2].
      { intros j ORF' Hj. apply (Hbefore (S j)). lia. }
      simpl. rewrite H1, H2. auto.
    + exfalso. apply (Hbefore 0 ORF0); [lia | reflexivity|].
      apply (ORF_row_None str_bitscore args T bin_). exact E.
Qed.

(** X11.  When a [tax] function raises on an ORF, [run] stops there: the
    per-ORF report keeps the header and the rows of the ORFs before it, the
    per-bin report holds its header only, and no bin is announced. *)
Theorem run_stops_at_first_raise {tax : Tax} str_bitscore args T k ORF :
  report_order T !! k = Some ORF ->
  ORF_raises T ORF ->
  (forall j ORF', j < k -> report_order T !! j = Some ORF' -> ~ ORF_raises T ORF') ->
  snd (run str_bitscore args T) = None
  /\ outf1 (fst (run str_bitscore args T)) = [header1]
  /\ length (outf2 (fst (run str_bitscore args T))) = S k.
Proof.
  intros Hk Hr Hbefore.
  destruct (ORF_rows_first_raise str_bitscore args T (bin_name args) _ _ _ Hk Hr Hbefore)
    as [Hnone Hlen].
  rewrite run_exit, run_outf1, run_outf2. unfold LCAs_ORFs_of_run. rewrite Hnone.
  simpl. rewrite Hlen. auto.
Qed.

Lemma run_stops_at_first_raise_witness :
  let run0 := run (tax := SpecTax.spec_tax) Examples.str_whole (Examples.args_f (3 # 10))
                  MoreExamples.T_dangling in
  report_order MoreExamples.T_dangling !! 1 = Some "c1_2"
  /\ snd run0 = None
  /\ outf1 (fst run0) = [header1]
  /\ length (outf2 (fst run0)) = 2.
Proof.
  intros run0. split; [vm_compute; reflexivity|].
  apply (run_stops_at_first_raise (tax := SpecTax.spec_tax) Examples.str_whole
           (Examples.args_f (3 # 10)) MoreExamples.T_dangling 1 "c1_2").
  - vm_compute; reflexivity.
  - exists [("ACC9", 50%Q)]. split; [vm_compute; reflexivity|].
    left. vm_compute; reflexivity.
  - intros j ORF' Hj Hlook. assert (j = 0) as -> by lia.
    vm_compute in Hlook. injection Hlook as <-.
    intros (hits & Hh & Hcase). vm_compute in Hh. injection Hh as <-.
    destruct Hcase as [Hc | (taxid & top & Hc & Hs & Hl)].
    + vm_compute in Hc. discriminate.
    + vm_compute in Hc. injection Hc as <- <-. vm_compute in Hl. discriminate.
Defined.

(** ** The name of the bin *)

Lemma after_last_slash_free (s cur : string) :
  Py.free_of "/"%char s = true -> Py.after_last_slash s cur = cur ++ s.
Proof.
  revert cur. induction s as [|c s IH]; intros cur; simpl.
  - intros _. rewrite append_nil_r. reflexivity.
  - intros H. apply andb_true_iff in H as [Hc Hs]. apply negb_true_iff in Hc.
    rewrite Hc, (IH _ Hs), append_assoc. reflexivity.
Qed.

Lemma after_last_slash_spec (s cur : string) :
  Py.free_of "/"%char cur = true ->
  Py.free_of "/"%char (Py.after_last_slash s cur) = true
  /\ exists dir,
       cur ++ s = dir ++ Py.after_last_slash s cur
       /\ (dir = "" \/ exists d, dir = d ++ "/").
Proof.
  revert cur. induction s as [|c s IH]; intros cur Hcur; simpl.
  - split; [exact Hcur|]. exists "". rewrite append_nil_r. auto.
  - destruct (Ascii.eqb c "/") eqn:E.
    + apply Ascii.eqb_eq in E as ->.
      destruct (IH "" eq_refl) as (Hfree & dir & Hsplit & Hdir).
      split; [exact Hfree|]. exists (cur ++ "/" ++ dir). split.
      * rewrite !append_assoc. f_equal. simpl. f_equal. exact Hsplit.
      * right. destruct Hdir as [-> | [d ->]].
        -- exists cur. rewrite append_nil_r. reflexivity.
        -- exists (cur ++ "/" ++ d). rewrite !append_assoc. reflexivity.
    + destruct (IH (cur ++ String c "")) as (Hfree & dir & Hsplit & Hdir).
      { rewrite free_of_app, Hcur. simpl. rewrite E. reflexivity. }
      split; [exact Hfree|]. exists dir. split; [|exact Hdir].
      rewrite <- Hsplit, append_assoc. reflexivity.
Qed.

Lemma after_last_slash_path (dir name cur : string) :
  Py.free_of "/"%char name = true ->
  Py.after_last_slash (dir ++ "/" ++ name) cur = name.
Proof.
  intros Hname. revert cur. induction dir as [|c dir IH]; intros cur.
  - simpl. apply after_last_slash_free. exact Hname.
  - rewrite append_cons. simpl. destruct (Ascii.eqb c "/"); apply IH.
Qed.

(** X12.  The bin id written in every row is the file name of
    [args.bin_fasta]: it holds no slash, [args.bin_fasta] is this name after
    nothing or after a directory part that ends with a slash, and a path
    [dir/name] with a name free of slashes gives [name]. *)
Theorem bin_name_is_the_file_name (args : arguments) :
  Py.free_of "/"%char (bin_name args) = true
  /\ (exists dir,
        bin_fasta args = dir ++ bin_name args
        /\ (dir = "" \/ exists d, dir = d ++ "/"))
  /\ (forall dir name,
        Py.free_of "/"%char name = true ->
        bin_fasta args = dir ++ "/" ++ name ->
        bin_name args = name).
Proof.
  unfold bin_name, Py.rsplit_slash_last.
  destruct (after_last_slash_spec (bin_fasta args) "" eq_refl) as (Hfree & dir & Hs & Hd).
  split; [exact Hfree|]. split; [exists dir; auto|].
  intros d name Hname ->. apply after_last_slash_path. exact Hname.
Qed.

Lemma bin_name_is_the_file_name_witness :
  bin_name (Examples.args_f (3 # 10)) = "bin.fa".
Proof.
  apply (proj2 (proj2 (bin_name_is_the_file_name (Examples.args_f (3 # 10))))
               "/data/bins" "bin.fa"); reflexivity.
Defined.

(** ** What the per-ORF loop does not read *)

Lemma ORF_rows_ext {tax1 tax2 : Tax} s args1 args2 T bin_ l :
  (forall ORF, ORF_row (tax := tax1) s args1 T bin_ ORF
               = ORF_row (tax := tax2) s args2 T bin_ ORF) ->
  ORF_rows (tax := tax1) s args1 T bin_ l = ORF_rows (tax := tax2) s args2 T bin_ l.
Proof.
  intros Hrow. induction l as [|ORF l IH]; [reflexivity|].
  simpl. rewrite Hrow, IH. reflexivity.
Qed.

(** X13.  The per-ORF loop reads neither [args.f] nor
    [tax.find_weighted_LCA]: with another fraction and another aggregator the
    per-ORF report is the same file, line for line, and the list handed to
    the aggregator is the same (or the loop is interrupted in both runs). *)
Theorem ORF_report_ignores_f {tax : Tax} str_bitscore args T f' g :
  outf2 (fst (run (tax := with_weighted_LCA tax g) str_bitscore (with_f args f') T))
  = outf2 (fst (run str_bitscore args T))
  /\ LCAs_ORFs_of_run (tax := with_weighted_LCA tax g) str_bitscore (with_f args f') T
     = LCAs_ORFs_of_run str_bitscore args T.
Proof.
  assert (ORF_rows (tax := with_weighted_LCA tax g) str_bitscore (with_f args f') T
                   (bin_name args) (report_order T)
          = ORF_rows str_bitscore args T (bin_name args) (report_order T)) as H.
  { apply ORF_rows_ext. intros ORF. reflexivity. }
  split.
  - rewrite !run_outf2. change (bin_name (with_f args f')) with (bin_name args).
    rewrite H. reflexivity.
  - unfold LCAs_ORFs_of_run. change (bin_name (with_f args f')) with (bin_name args).
    rewrite H. reflexivity.
Qed.
